(** * Weather-Data-Module: the retrieval and normalization pipeline

    A shallow embedding of the core of the repository:
    - [models/models.py]            ([Location], [WeatherData]),
    - [cache/memory_cache.py]       ([MemoryCache]),
    - [api/weather_client.py]       ([WeatherClient]),
    - [services/weather_service.py] ([WeatherService]),
    followed by the properties the specification states about them.

    Conventions.
    - A Python [float] is a binary64 value ([PrimFloat.float]); arithmetic and
      comparisons are the IEEE ones Python uses.  A Python [int] is a [Z].
    - A Python [str] is a [string]; [Optional[T]] is [option T].
    - An exception is a value of [exn]; a call that may raise returns a
      [Result].
    - What lives outside the repository (the text Python prints for a float,
      pydantic's validation of the [WeatherData] constructor, the provider
      behind [requests], the clock behind [time.time]) is gathered in the
      class [Env]; every statement holds for every such environment. *)

From Stdlib Require Import ZArith Floats Bool Ascii String.
From stdpp Require Import base option list strings gmap pretty.

Set Warnings "-inexact-float,-register-all".
Local Open Scope string_scope.

(** ** Exceptions and results *)

Inductive exn : Type :=
| ValueError
| KeyError
| TypeError
| AttributeError
| OverflowError
| JSONDecodeError
| ValidationError
| WeatherClientError (message : string).

Inductive Result (A : Type) : Type :=
| Ok (a : A)
| Raise (e : exn).
Arguments Ok {A} a.
Arguments Raise {A} e.

(** ** Python values used by the models *)

(** [x is not None]: the field is set. *)
Definition is_set {A : Type} (o : option A) : bool :=
  match o with
  | Some _ => true
  | None => false
  end.

(** [bool(x)] for an [Optional[float]]: [None] and zero (of either sign) are
    false, every other float (a NaN included) is true. *)
Definition truthy_float (o : option float) : bool :=
  match o with
  | Some x => negb (PrimFloat.eqb x 0%float)
  | None => false
  end.

(** [bool(s)] for an [Optional[str]]: [None] and the empty string are false. *)
Definition truthy_str (o : option string) : bool :=
  match o with
  | Some s => negb (String.eqb s "")
  | None => false
  end.

(** The value an f-string interpolates for an optional string that is known
    to be truthy where it is used. *)
Definition str_of (o : option string) : string := default "" o.

Definition float_of (o : option float) : float := default 0%float o.

(** [str.upper()] as it acts on ASCII text: the letters a-z become A-Z and
    every other byte is kept. *)
Definition upper_ascii (c : ascii) : ascii :=
  let n := nat_of_ascii c in
  if (97 <=? n)%nat && (n <=? 122)%nat then ascii_of_nat (n - 32) else c.

Fixpoint upper (s : string) : string :=
  match s with
  | EmptyString => EmptyString
  | String c s' => String (upper_ascii c) (upper s')
  end.

(** ** models/models.py *)

Record Location : Type := {
  city : option string;
  country : option string;
  state : option string;
  zip_code : option string;
  ip_address : option string;
  latitude : option float;
  longitude : option float;
}.

Record WeatherData : Type := {
  wd_country : string;
  wd_state : option string;
  wd_city : string;
  time_zone : option string;
  temp_c : option float;
  temp_f : option float;
  temp_k : option float;
  clouds : Z;
  wind_speed_kph : float;
  wind_degree : option Z;
  wind_dir : option string;
  pressure_mb : option float;
  pressure_in : option float;
  precip_mm : option float;
  precip_in : option float;
  humidity : option Z;
  feelslike_c : option float;
  feelslike_f : option float;
  vis_km : option float;
  vis_miles : option float;
  uv : option float;
  gust_kph : option float;
  gust_mph : option float;
  last_updated : option string;
}.

(** ** JSON payloads, as [response.json()] returns them *)

Inductive json : Type :=
| JNull
| JBool (b : bool)
| JInt (z : Z)
| JFloat (x : float)
| JStr (s : string)
| JList (l : list json)
| JDict (d : list (string * json)).

(** The keyword arguments the client passes to [WeatherData(...)], before
    pydantic validates them. *)
Record WeatherKwargs : Type := {
  kw_country : json;
  kw_state : json;
  kw_city : json;
  kw_time_zone : json;
  kw_temp_c : json;
  kw_temp_f : json;
  kw_temp_k : json;
  kw_clouds : json;
  kw_wind_speed_kph : json;
  kw_wind_degree : json;
  kw_wind_dir : json;
  kw_pressure_mb : json;
  kw_pressure_in : json;
  kw_precip_mm : json;
  kw_precip_in : json;
  kw_humidity : json;
  kw_feelslike_c : json;
  kw_feelslike_f : json;
  kw_vis_km : json;
  kw_vis_miles : json;
  kw_uv : json;
  kw_gust_kph : json;
  kw_gust_mph : json;
  kw_last_updated : json;
}.

(** ** The outside world *)

Record Request : Type := {
  req_method : string;
  req_url : string;
  req_params : list (string * string);
  req_json : option json;
  req_timeout : Z;
}.

(** What [requests.get] / [requests.post] does: raise a [RequestException], or
    return a response with a status, a text, and a body that [response.json()]
    decodes ([None] when decoding raises). *)
Inductive http_outcome : Type :=
| RequestException (message : string)
| HttpResponse (status_code : Z) (text : string) (body : option json).

Class Env : Type := {
  (** the text an f-string produces for a float *)
  float_repr : float -> string;
  (** pydantic's validation of the keyword arguments of [WeatherData] *)
  model_validate : WeatherKwargs -> Result WeatherData;
  (** the provider's answer to the n-th request of the run *)
  http_send : nat -> Request -> http_outcome;
  (** the n-th reading of [time.time()] *)
  time_time : nat -> float;
}.

(** [Location.to_query] *)
Definition to_query `{Env} (self : Location) : Result string :=
  if truthy_float (latitude self) && truthy_float (longitude self) then
    Ok (float_repr (float_of (latitude self)) ++ "," ++
        float_repr (float_of (longitude self)))
  else if truthy_str (zip_code self) then Ok (str_of (zip_code self))
  else if truthy_str (ip_address self) then Ok (str_of (ip_address self))
  else if truthy_str (city self) && truthy_str (country self) then
    Ok (str_of (city self) ++ "," ++ str_of (country self))
  else if truthy_str (city self) && truthy_str (state self) then
    Ok (str_of (city self) ++ "," ++ str_of (state self))
  else if truthy_str (city self) then Ok (str_of (city self))
  else if truthy_str (state self) then Ok (str_of (state self))
  else if truthy_str (country self) then Ok (str_of (country self))
  else Raise ValueError.

(** ** cache/memory_cache.py *)

(** The float Python adds for an [int] operand of [float + int]: the nearest
    binary64 value, or [OverflowError] when the integer is out of range. *)
Definition float_of_int (z : Z) : Result float :=
  let x := SF2Prim (binary_normalize prec emax z 0 false) in
  if PrimFloat.is_infinity x then Raise OverflowError else Ok x.

Section MemoryCache.
Context {V : Type}.

Record CacheEntry : Type := { value : V; expires_at : float }.

(** [MemoryCache.get], where [now] is what [time.time()] returns when the
    method reads it (it reads it only for a key that has an entry). *)
Definition MemoryCache_get (self : gmap string CacheEntry) (now : float)
    (key : string) : option V * gmap string CacheEntry :=
  match self !! key with
  | None => (None, self)
  | Some entry =>
      if (expires_at entry <? now)%float then (None, delete key self)
      else (Some (value entry), self)
  end.

(** [MemoryCache.set], where [now] is the reading of [time.time()]. *)
Definition MemoryCache_set (self : gmap string CacheEntry) (now : float)
    (key : string) (v : V) (ttl : Z) : Result (gmap string CacheEntry) :=
  match float_of_int ttl with
  | Ok t =>
      let expires := (now + t)%float in
      Ok (<[key := {| value := v; expires_at := expires |}]> self)
  | Raise e => Raise e
  end.
End MemoryCache.
Arguments CacheEntry V : clear implicits.

(** ** services/weather_service.py: [_apply_units] *)

Definition c_to_k (c : float) : float := (c + 273.15)%float.

Definition f_to_k (f : float) : float := ((f - 32.0) * 5.0 / 9.0 + 273.15)%float.

(** [units in ("K", "ALL")] *)
Definition in_K_ALL (units : string) : bool :=
  String.eqb units "K" || String.eqb units "ALL".

(** The local [base_k] of [_apply_units]. *)
Definition base_k (wd : WeatherData) (units : string) : option float :=
  let base_c := temp_c wd in
  let base_f := temp_f wd in
  if in_K_ALL units && (is_set base_c || is_set base_f) then
    match base_c with
    | Some c => Some (c_to_k c)
    | None =>
        match base_f with
        | Some f => Some (f_to_k f)
        | None => None
        end
    end
  else None.

(** [WeatherData] built from the three temperatures and [common_fields]. *)
Definition with_temps (wd : WeatherData) (c f k : option float) : WeatherData :=
  {| wd_country := wd_country wd;
     wd_state := wd_state wd;
     wd_city := wd_city wd;
     time_zone := time_zone wd;
     temp_c := c;
     temp_f := f;
     temp_k := k;
     clouds := clouds wd;
     wind_speed_kph := wind_speed_kph wd;
     wind_degree := wind_degree wd;
     wind_dir := wind_dir wd;
     pressure_mb := pressure_mb wd;
     pressure_in := pressure_in wd;
     precip_mm := precip_mm wd;
     precip_in := precip_in wd;
     humidity := humidity wd;
     feelslike_c := feelslike_c wd;
     feelslike_f := feelslike_f wd;
     vis_km := vis_km wd;
     vis_miles := vis_miles wd;
     uv := uv wd;
     gust_kph := gust_kph wd;
     gust_mph := gust_mph wd;
     last_updated := last_updated wd |}.

Definition _apply_units (wd : WeatherData) (units : string) : WeatherData :=
  let base_c := temp_c wd in
  let base_f := temp_f wd in
  let base_k := base_k wd units in
  if String.eqb units "C" then with_temps wd base_c None None
  else if String.eqb units "F" then with_temps wd None base_f None
  else if String.eqb units "K" then with_temps wd None None base_k
  else if String.eqb units "BOTH" then with_temps wd base_c base_f None
  else if String.eqb units "ALL" then with_temps wd base_c base_f base_k
  else wd.

(** ** Python operations on decoded JSON *)

(** [bool(x)] *)
Definition truthy (j : json) : bool :=
  match j with
  | JNull => false
  | JBool b => b
  | JInt z => negb (z =? 0)%Z
  | JFloat x => negb (PrimFloat.eqb x 0%float)
  | JStr s => negb (String.eqb s "")
  | JList l => match l with [] => false | _ => true end
  | JDict d => match d with [] => false | _ => true end
  end.

(** Lookup in a decoded object (its keys are distinct; the first binding of a
    key is the one found). *)
Fixpoint assoc (d : list (string * json)) (key : string) : option json :=
  match d with
  | [] => None
  | (k, v) :: d' => if String.eqb k key then Some v else assoc d' key
  end.

(** [x[key]] with a string key *)
Definition subscript (x : json) (key : string) : Result json :=
  match x with
  | JDict d => match assoc d key with Some v => Ok v | None => Raise KeyError end
  | _ => Raise TypeError
  end.

(** [x.get(key, dflt)]; only a dict has the method. *)
Definition py_get (x : json) (key : string) (dflt : json) : Result json :=
  match x with
  | JDict d => Ok (default dflt (assoc d key))
  | _ => Raise AttributeError
  end.

(** [x or None] *)
Definition or_None (x : json) : json := if truthy x then x else JNull.

(** The items a [for] loop visits, after [len(x)] was taken: a list gives its
    elements, a dict its keys, a string its characters; other values have no
    length. *)
Definition iter_items (x : json) : Result (list json) :=
  match x with
  | JList l => Ok l
  | JDict d => Ok (map (fun kv => JStr (fst kv)) d)
  | JStr s => Ok (map (fun c => JStr (String c EmptyString)) (list_ascii_of_string s))
  | _ => Raise TypeError
  end.

(** Sequencing of calls that may raise. *)
Definition rbind {A B : Type} (r : Result A) (k : A -> Result B) : Result B :=
  match r with
  | Ok a => k a
  | Raise e => Raise e
  end.

Notation "x <-? r ;; k" := (rbind r (fun x => k))
  (at level 100, r at next level, right associativity, only parsing).

(** ** api/weather_client.py *)

Record WeatherClient : Type := {
  api_key : string;
  base_url : string;
  timeout : Z;
}.

(** The local [get_numeric(key)] over [current_block]. *)
Definition get_numeric (current_block : json) (key : string) : Result json :=
  value <-? py_get current_block key JNull;;
  Ok (match value with
      | JNull => JNull
      | JStr s => if String.eqb s "" then JNull else value
      | _ => value
      end).

(** The arguments of the [WeatherData(...)] call both client methods make,
    evaluated in the order they are written. *)
Definition weather_kwargs (location_block current_block : json) : Result WeatherKwargs :=
  a_country <-? subscript location_block "country";;
  a_region <-? py_get location_block "region" JNull;;
  a_city <-? subscript location_block "name";;
  a_tz <-? py_get location_block "tz_id" JNull;;
  a_temp_c <-? py_get current_block "temp_c" JNull;;
  a_temp_f <-? py_get current_block "temp_f" JNull;;
  a_cloud <-? py_get current_block "cloud" (JInt 0);;
  a_wind_kph <-? py_get current_block "wind_kph" (JFloat 0.0);;
  a_wind_degree <-? get_numeric current_block "wind_degree";;
  a_wind_dir <-? py_get current_block "wind_dir" JNull;;
  a_pressure_mb <-? get_numeric current_block "pressure_mb";;
  a_pressure_in <-? get_numeric current_block "pressure_in";;
  a_precip_mm <-? get_numeric current_block "precip_mm";;
  a_precip_in <-? get_numeric current_block "precip_in";;
  a_humidity <-? get_numeric current_block "humidity";;
  a_feelslike_c <-? get_numeric current_block "feelslike_c";;
  a_feelslike_f <-? get_numeric current_block "feelslike_f";;
  a_vis_km <-? get_numeric current_block "vis_km";;
  a_vis_miles <-? get_numeric current_block "vis_miles";;
  a_uv <-? get_numeric current_block "uv";;
  a_gust_kph <-? get_numeric current_block "gust_kph";;
  a_gust_mph <-? get_numeric current_block "gust_mph";;
  a_last_updated <-? py_get current_block "last_updated" JNull;;
  Ok {| kw_country := a_country;
        kw_state := or_None a_region;
        kw_city := a_city;
        kw_time_zone := or_None a_tz;
        kw_temp_c := a_temp_c;
        kw_temp_f := a_temp_f;
        kw_temp_k := JNull;
        kw_clouds := a_cloud;
        kw_wind_speed_kph := a_wind_kph;
        kw_wind_degree := a_wind_degree;
        kw_wind_dir := a_wind_dir;
        kw_pressure_mb := a_pressure_mb;
        kw_pressure_in := a_pressure_in;
        kw_precip_mm := a_precip_mm;
        kw_precip_in := a_precip_in;
        kw_humidity := a_humidity;
        kw_feelslike_c := a_feelslike_c;
        kw_feelslike_f := a_feelslike_f;
        kw_vis_km := a_vis_km;
        kw_vis_miles := a_vis_miles;
        kw_uv := a_uv;
        kw_gust_kph := a_gust_kph;
        kw_gust_mph := a_gust_mph;
        kw_last_updated := a_last_updated |}.

(** [WeatherData(...)] as the client calls it: the arguments, then pydantic. *)
Definition build_weather `{Env} (location_block current_block : json) : Result WeatherData :=
  kwargs <-? weather_kwargs location_block current_block;;
  model_validate kwargs.

(** ** Effects: the cache of the service, the requests sent, the clock *)

Record World : Type := {
  (** [WeatherService.cache]: [None], or the dict of the [MemoryCache] *)
  svc_cache : option (gmap string (CacheEntry WeatherData));
  (** the requests issued through [requests], oldest first *)
  requests : list Request;
  (** how many times [time.time()] was read *)
  clock_reads : nat;
}.

Definition M (A : Type) : Type := World -> Result A * World.

Definition mret {A : Type} (a : A) : M A := fun w => (Ok a, w).

Definition mbind {A B : Type} (m : M A) (k : A -> M B) : M B :=
  fun w =>
    match m w with
    | (Ok a, w') => k a w'
    | (Raise e, w') => (Raise e, w')
    end.

Definition lift {A : Type} (r : Result A) : M A := fun w => (r, w).

Definition raise {A : Type} (e : exn) : M A := lift (Raise e).

Notation "x <- m ;; k" := (mbind m (fun x => k))
  (at level 100, m at next level, right associativity, only parsing).

(** [requests.get(...)] and [requests.post(...)] *)
Definition send `{Env} (r : Request) : M http_outcome :=
  fun w =>
    (Ok (http_send (length (requests w)) r),
     {| svc_cache := svc_cache w;
        requests := requests w ++ [r];
        clock_reads := clock_reads w |}).

(** [response.json()] *)
Definition response_json (body : option json) : Result json :=
  match body with
  | Some raw => Ok raw
  | None => Raise JSONDecodeError
  end.

Module weather_client.

(** [WeatherClient.get_current_weather] *)
Definition get_current_weather `{Env} (self : WeatherClient) (query : string) : M WeatherData :=
  let url := base_url self ++ "/current.json" in
  let params := [("key", api_key self); ("q", query)] in
  response <- send {| req_method := "GET"; req_url := url; req_params := params;
                      req_json := None; req_timeout := timeout self |};;
  match response with
  | RequestException e => raise (WeatherClientError ("Network error: " ++ e))
  | HttpResponse status_code text body =>
      if negb (status_code =? 200)%Z then
        raise (WeatherClientError
                 ("WeatherAPI request failed: " ++ pretty status_code ++ " " ++ text))
      else
        lift (raw <-? response_json body;;
              location_block <-? subscript raw "location";;
              current_block <-? subscript raw "current";;
              logged_name <-? py_get location_block "name" (JStr query);;
              build_weather location_block current_block)
  end.

(** The first loop of [get_current_weather_bulk]: every location is tagged
    with its position as [custom_id]. *)
Fixpoint tag_locations `{Env} (idx : nat) (locations : list Location)
    (bulk_locations : list json) (id_to_index : gmap string nat)
    : Result (list json * gmap string nat) :=
  match locations with
  | [] => Ok (bulk_locations, id_to_index)
  | loc :: rest =>
      q <-? to_query loc;;
      let custom_id := pretty idx in
      tag_locations (S idx) rest
        (bulk_locations ++ [JDict [("q", JStr q); ("custom_id", JStr custom_id)]])
        (<[custom_id := idx]> id_to_index)
  end.

(** The body of the second loop, for one item of the provider's answer.  An
    unhashable [custom_id] makes the membership test raise; [results[idx]] is
    always in range, since [id_to_index] holds positions of [locations]. *)
Definition process_item `{Env} (id_to_index : gmap string nat)
    (results : list (option WeatherData)) (item : json)
    : Result (list (option WeatherData)) :=
  query_block <-? py_get item "query" (JDict []);;
  custom_id <-? py_get query_block "custom_id" JNull;;
  location_block <-? py_get query_block "location" (JDict []);;
  current_block <-? py_get query_block "current" (JDict []);;
  match custom_id with
  | JNull => Ok results
  | JList _ | JDict _ => Raise TypeError
  | JStr s =>
      match id_to_index !! s with
      | None => Ok results
      | Some idx =>
          wd <-? build_weather location_block current_block;;
          Ok (<[idx := Some wd]> results)
      end
  | JBool _ | JInt _ | JFloat _ => Ok results
  end.

Fixpoint process_items `{Env} (id_to_index : gmap string nat)
    (results : list (option WeatherData)) (bulk_items : list json)
    : Result (list (option WeatherData)) :=
  match bulk_items with
  | [] => Ok results
  | item :: rest =>
      results' <-? process_item id_to_index results item;;
      process_items id_to_index results' rest
  end.

(** [WeatherClient.get_current_weather_bulk] *)
Definition get_current_weather_bulk `{Env} (self : WeatherClient)
    (locations : list Location) : M (list (option WeatherData)) :=
  match locations with
  | [] => mret []
  | _ :: _ =>
      let url := base_url self ++ "/current.json" in
      let params := [("key", api_key self); ("q", "bulk")] in
      tagged <- lift (tag_locations 0 locations [] ∅);;
      let body := JDict [("locations", JList (fst tagged))] in
      let id_to_index := snd tagged in
      response <- send {| req_method := "POST"; req_url := url; req_params := params;
                          req_json := Some body; req_timeout := timeout self |};;
      match response with
      | RequestException e => raise (WeatherClientError ("Network error: " ++ e))
      | HttpResponse status_code text body =>
          if negb (status_code =? 200)%Z then
            raise (WeatherClientError
                     ("Failed bulk weather request: " ++ pretty status_code ++ " " ++ text))
          else
            lift (raw <-? response_json body;;
                  bulk <-? py_get raw "bulk" (JList []);;
                  bulk_items <-? iter_items bulk;;
                  process_items id_to_index (replicate (length locations) None) bulk_items)
      end
  end.

End weather_client.

Module weather_service.

(** The service object; its [cache] attribute is [svc_cache] of the [World].
    A [MemoryCache] and a [WeatherData] are always true under [if], so
    [if self.cache:] asks whether there is a cache and [if cached_data:]
    whether [get] returned a value. *)
Record WeatherService : Type := {
  client : WeatherClient;
  cache_ttl : Z;
  default_units : string;
}.

(** [WeatherService.__init__] *)
Definition init (client : WeatherClient) (cache_ttl : Z) (default_units : string)
    : WeatherService :=
  {| client := client; cache_ttl := cache_ttl; default_units := upper default_units |}.

(** [(units or self.default_units).upper()] *)
Definition effective_units (self : WeatherService) (units : option string) : string :=
  upper (if truthy_str units then str_of units else default_units self).

(** [self.cache.get(cache_key)] under [if self.cache:]; without a cache the
    lookup is skipped.  The clock is read only for a key that has an entry. *)
Definition cache_get `{Env} (key : string) : M (option WeatherData) :=
  fun w =>
    match svc_cache w with
    | None => (Ok None, w)
    | Some store =>
        let now := time_time (clock_reads w) in
        let reads := if bool_decide (is_Some (store !! key))
                     then S (clock_reads w) else clock_reads w in
        (Ok (fst (MemoryCache_get store now key)),
         {| svc_cache := Some (snd (MemoryCache_get store now key));
            requests := requests w;
            clock_reads := reads |})
    end.

(** [self.cache.set(cache_key, data, ttl)] under [if self.cache:] *)
Definition cache_set `{Env} (key : string) (data : WeatherData) (ttl : Z) : M unit :=
  fun w =>
    match svc_cache w with
    | None => (Ok tt, w)
    | Some store =>
        let now := time_time (clock_reads w) in
        match MemoryCache_set store now key data ttl with
        | Ok store' =>
            (Ok tt, {| svc_cache := Some store';
                       requests := requests w;
                       clock_reads := S (clock_reads w) |})
        | Raise e =>
            (Raise e, {| svc_cache := Some store;
                         requests := requests w;
                         clock_reads := S (clock_reads w) |})
        end
    end.

(** [WeatherService.get_current_weather] *)
Definition get_current_weather `{Env} (self : WeatherService) (location : Location)
    (units : option string) : M WeatherData :=
  let units := effective_units self units in
  query <- lift (to_query location);;
  let cache_key := query ++ "|units=" ++ units in
  cached_data <- cache_get cache_key;;
  match cached_data with
  | Some data => mret data
  | None =>
      data <- weather_client.get_current_weather (client self) query;;
      let processed_data := _apply_units data units in
      stored <- cache_set cache_key processed_data (cache_ttl self);;
      mret processed_data
  end.

(** The loop of [get_current_weather_bulk] over the client's results. *)
Fixpoint process_results (raw_results : list (option WeatherData)) (units : string)
    : list WeatherData :=
  match raw_results with
  | [] => []
  | Some wd :: rest => _apply_units wd units :: process_results rest units
  | None :: rest => process_results rest units
  end.

(** [WeatherService.get_current_weather_bulk] *)
Definition get_current_weather_bulk `{Env} (self : WeatherService)
    (locations : list Location) (units : option string) : M (list WeatherData) :=
  match locations with
  | [] => mret []
  | _ :: _ =>
      let effective_units := effective_units self units in
      raw_results <- weather_client.get_current_weather_bulk (client self) locations;;
      mret (process_results raw_results effective_units)
  end.

End weather_service.

(** * The specification's vocabulary *)

(** ** Query resolution (section 4.1) *)

(** The precedence of section 4.1 as a table: the eight rules in their order,
    each with the test that selects it and the query it yields.  What
    "present" means is a parameter, for the coordinates and for the text
    fields. *)
Definition precedence `{Env} (present_f : option float -> bool)
    (present_s : option string -> bool) (l : Location) : list (bool * string) :=
  [ (present_f (latitude l) && present_f (longitude l),
     float_repr (float_of (latitude l)) ++ "," ++ float_repr (float_of (longitude l)));
    (present_s (zip_code l), str_of (zip_code l));
    (present_s (ip_address l), str_of (ip_address l));
    (present_s (city l) && present_s (country l),
     str_of (city l) ++ "," ++ str_of (country l));
    (present_s (city l) && present_s (state l),
     str_of (city l) ++ "," ++ str_of (state l));
    (present_s (city l), str_of (city l));
    (present_s (state l), str_of (state l));
    (present_s (country l), str_of (country l)) ].

(** First match wins; no match fails. *)
Fixpoint first_match (rules : list (bool * string)) : Result string :=
  match rules with
  | [] => Raise ValueError
  | (true, q) :: _ => Ok q
  | (false, _) :: rest => first_match rest
  end.

(** Each coordinate is unset or a non-zero number. *)
Definition coordinates_regular (l : Location) : Prop :=
  truthy_float (latitude l) = is_set (latitude l) /\
  truthy_float (longitude l) = is_set (longitude l).

(** The location with every falsy field (a zero coordinate, an empty text)
    replaced by [None]. *)
Definition unset_falsy (l : Location) : Location :=
  let keep_s (o : option string) := if truthy_str o then o else None in
  let keep_f (o : option float) := if truthy_float o then o else None in
  {| city := keep_s (city l);
     country := keep_s (country l);
     state := keep_s (state l);
     zip_code := keep_s (zip_code l);
     ip_address := keep_s (ip_address l);
     latitude := keep_f (latitude l);
     longitude := keep_f (longitude l) |}.

Definition without_coordinates (l : Location) : Location :=
  {| city := city l;
     country := country l;
     state := state l;
     zip_code := zip_code l;
     ip_address := ip_address l;
     latitude := None;
     longitude := None |}.

(** ** Unit modes (sections 3 and 4.4) *)

(** The temperature set of a mode, as (Celsius, Fahrenheit, Kelvin) flags;
    [None] for a string that is not a mode. *)
Definition mode_set (units : string) : option (bool * bool * bool) :=
  if String.eqb units "C" then Some (true, false, false)
  else if String.eqb units "F" then Some (false, true, false)
  else if String.eqb units "K" then Some (false, false, true)
  else if String.eqb units "BOTH" then Some (true, true, false)
  else if String.eqb units "ALL" then Some (true, true, true)
  else None.

(** Kelvin as section 4.4 derives it: from Celsius when there is one, from
    Fahrenheit only when there is no Celsius, absent when both are. *)
Definition kelvin_of (wd : WeatherData) : option float :=
  match temp_c wd, temp_f wd with
  | Some c, _ => Some (c + 273.15)%float
  | None, Some f => Some ((f - 32) * 5 / 9 + 273.15)%float
  | None, None => None
  end.

(** The twenty-one fields that are not temperatures. *)
Definition common_fields (wd : WeatherData) :=
  (wd_country wd, wd_state wd, wd_city wd, time_zone wd, clouds wd,
   wind_speed_kph wd, wind_degree wd, wind_dir wd, pressure_mb wd,
   pressure_in wd, precip_mm wd, precip_in wd, humidity wd, feelslike_c wd,
   feelslike_f wd, vis_km wd, vis_miles wd, uv wd, gust_kph wd, gust_mph wd,
   last_updated wd).

(** ** The provider client (section 4.2) *)

(** The world after one more request. *)
Definition add_request (r : Request) (w : World) : World :=
  {| svc_cache := svc_cache w;
     requests := requests w ++ [r];
     clock_reads := clock_reads w |}.

(** The world with another cache in the service. *)
Definition with_cache (c : option (gmap string (CacheEntry WeatherData))) (w : World) : World :=
  {| svc_cache := c; requests := requests w; clock_reads := clock_reads w |}.

(** The single-location request for a query. *)
Definition single_request (self : WeatherClient) (query : string) : Request :=
  {| req_method := "GET";
     req_url := base_url self ++ "/current.json";
     req_params := [("key", api_key self); ("q", query)];
     req_json := None;
     req_timeout := timeout self |}.

(** The sub-query sent for the location at position [i], tagged with its
    positional correlation id. *)
Definition tagged_query (i : nat) (q : string) : json :=
  JDict [("q", JStr q); ("custom_id", JStr (pretty i))].

(** The batched request for the queries of the locations, in their order. *)
Definition bulk_request (self : WeatherClient) (queries : list string) : Request :=
  {| req_method := "POST";
     req_url := base_url self ++ "/current.json";
     req_params := [("key", api_key self); ("q", "bulk")];
     req_json := Some (JDict [("locations", JList (imap tagged_query queries))]);
     req_timeout := timeout self |}.

(** What [id_to_index] holds after the first loop over [n] locations. *)
Definition indexes (n : nat) (id_to_index : gmap string nat) : Prop :=
  forall s j, id_to_index !! s = Some j <-> j < n /\ s = pretty j.

(** The correlation id an item of the answer carries, when it is a string. *)
Definition item_custom_id (item : json) : option string :=
  match py_get item "query" (JDict []) with
  | Ok query_block =>
      match py_get query_block "custom_id" JNull with
      | Ok (JStr s) => Some s
      | _ => None
      end
  | Raise _ => None
  end.

(** The observation an item of the answer carries. *)
Definition item_weather `{Env} (item : json) : Result WeatherData :=
  query_block <-? py_get item "query" (JDict []);;
  location_block <-? py_get query_block "location" (JDict []);;
  current_block <-? py_get query_block "current" (JDict []);;
  build_weather location_block current_block.

(** The last item of the answer that carries a correlation id. *)
Definition last_tagged (custom_id : string) (bulk_items : list json) : option json :=
  last (filter (fun item => item_custom_id item = Some custom_id) bulk_items).

(** The sub-result for a correlation id: the observation of the last item of
    the answer that carries the id, absent when no item does. *)
Definition answer_for `{Env} (custom_id : string) (bulk_items : list json)
    : option WeatherData :=
  match last_tagged custom_id bulk_items with
  | Some item =>
      match item_weather item with
      | Ok wd => Some wd
      | Raise _ => None
      end
  | None => None
  end.

(** An item the second loop gets through: its [query] entry is an object (or
    missing), its correlation id is hashable, and when the id is one that was
    sent, its blocks make a valid observation. *)
Definition item_accepted `{Env} (n : nat) (item : json) : Prop :=
  exists query_block custom_id location_block current_block,
    py_get item "query" (JDict []) = Ok query_block /\
    py_get query_block "custom_id" JNull = Ok custom_id /\
    py_get query_block "location" (JDict []) = Ok location_block /\
    py_get query_block "current" (JDict []) = Ok current_block /\
    match custom_id with
    | JList _ | JDict _ => False
    | JStr s =>
        (exists i, i < n /\ s = pretty i) ->
        exists wd, build_weather location_block current_block = Ok wd
    | _ => True
    end.

(** ** The retrieval service (section 4.5) *)

(** The cache key of a call: the query, ["|units="], the effective mode. *)
Definition cache_key_of (self : weather_service.WeatherService) (units : option string)
    (q : string) : string :=
  q ++ "|units=" ++ weather_service.effective_units self units.

(** The non-absent elements of a sequence, in its order. *)
Definition present {A : Type} (l : list (option A)) : list A := omap id l.

(** * A sample environment

    The statements below hold for every [Env]; the examples run in this one. *)

(** The text of the few floats the examples print. *)
Definition sample_float_repr (x : float) : string :=
  if (x =? 51.5074)%float then "51.5074"
  else if (x =? -0.1278)%float then "-0.1278"
  else if (x =? 5)%float then "5.0"
  else "0.0".

(** A validator that accepts a value of the JSON type of each field (an int
    for a float field included) and rejects every other value. *)
Definition need_str (j : json) : Result string :=
  match j with JStr s => Ok s | _ => Raise ValidationError end.

Definition opt_str (j : json) : Result (option string) :=
  match j with JNull => Ok None | JStr s => Ok (Some s) | _ => Raise ValidationError end.

Definition need_int (j : json) : Result Z :=
  match j with JInt z => Ok z | _ => Raise ValidationError end.

Definition opt_int (j : json) : Result (option Z) :=
  match j with JNull => Ok None | JInt z => Ok (Some z) | _ => Raise ValidationError end.

Definition need_float (j : json) : Result float :=
  match j with
  | JFloat x => Ok x
  | JInt z => match float_of_int z with Ok x => Ok x | Raise _ => Raise ValidationError end
  | _ => Raise ValidationError
  end.

Definition opt_float (j : json) : Result (option float) :=
  match j with
  | JNull => Ok None
  | _ => x <-? need_float j;; Ok (Some x)
  end.

Definition sample_validate (kw : WeatherKwargs) : Result WeatherData :=
  v_country <-? need_str (kw_country kw);;
  v_state <-? opt_str (kw_state kw);;
  v_city <-? need_str (kw_city kw);;
  v_time_zone <-? opt_str (kw_time_zone kw);;
  v_temp_c <-? opt_float (kw_temp_c kw);;
  v_temp_f <-? opt_float (kw_temp_f kw);;
  v_temp_k <-? opt_float (kw_temp_k kw);;
  v_clouds <-? need_int (kw_clouds kw);;
  v_wind_speed_kph <-? need_float (kw_wind_speed_kph kw);;
  v_wind_degree <-? opt_int (kw_wind_degree kw);;
  v_wind_dir <-? opt_str (kw_wind_dir kw);;
  v_pressure_mb <-? opt_float (kw_pressure_mb kw);;
  v_pressure_in <-? opt_float (kw_pressure_in kw);;
  v_precip_mm <-? opt_float (kw_precip_mm kw);;
  v_precip_in <-? opt_float (kw_precip_in kw);;
  v_humidity <-? opt_int (kw_humidity kw);;
  v_feelslike_c <-? opt_float (kw_feelslike_c kw);;
  v_feelslike_f <-? opt_float (kw_feelslike_f kw);;
  v_vis_km <-? opt_float (kw_vis_km kw);;
  v_vis_miles <-? opt_float (kw_vis_miles kw);;
  v_uv <-? opt_float (kw_uv kw);;
  v_gust_kph <-? opt_float (kw_gust_kph kw);;
  v_gust_mph <-? opt_float (kw_gust_mph kw);;
  v_last_updated <-? opt_str (kw_last_updated kw);;
  Ok {| wd_country := v_country; wd_state := v_state; wd_city := v_city;
        time_zone := v_time_zone; temp_c := v_temp_c; temp_f := v_temp_f;
        temp_k := v_temp_k; clouds := v_clouds; wind_speed_kph := v_wind_speed_kph;
        wind_degree := v_wind_degree; wind_dir := v_wind_dir;
        pressure_mb := v_pressure_mb; pressure_in := v_pressure_in;
        precip_mm := v_precip_mm; precip_in := v_precip_in; humidity := v_humidity;
        feelslike_c := v_feelslike_c; feelslike_f := v_feelslike_f;
        vis_km := v_vis_km; vis_miles := v_vis_miles; uv := v_uv;
        gust_kph := v_gust_kph; gust_mph := v_gust_mph;
        last_updated := v_last_updated |}.

(** A provider's location and current-conditions blocks for a city. *)
Definition sample_location_block (name : string) : json :=
  JDict [("name", JStr name); ("region", JStr ""); ("country", JStr "United Kingdom");
         ("tz_id", JStr "Europe/London")].

Definition sample_current_block : json :=
  JDict [("temp_c", JFloat 15.5); ("temp_f", JFloat 59.9); ("cloud", JInt 75);
         ("wind_kph", JFloat 12.5); ("pressure_mb", JStr ""); ("humidity", JInt 60)].

Definition sample_item (custom_id : json) (name : string) : json :=
  JDict [("query", JDict [("custom_id", custom_id); ("q", JStr name);
                          ("location", sample_location_block name);
                          ("current", sample_current_block)])].

(** A provider that answers a single query with London, and a bulk query with
    three items out of request order, one of them under an id that was never
    sent. *)
Definition sample_http (n : nat) (r : Request) : http_outcome :=
  if String.eqb (req_method r) "POST" then
    HttpResponse 200 ""
      (Some (JDict [("bulk", JList [sample_item (JStr "2") "Oslo";
                                     sample_item (JStr "9") "Nowhere";
                                     sample_item (JStr "0") "London"])]))
  else
    HttpResponse 200 ""
      (Some (JDict [("location", sample_location_block "London");
                    ("current", sample_current_block)])).

(** A clock that starts at 1000 and advances ten seconds per reading. *)
Definition sample_clock (n : nat) : float :=
  (1000 + 10 * PrimFloat.of_uint63 (Uint63.of_Z (Z.of_nat n)))%float.

(** A provider whose current-conditions block has a blank temperature and a
    blank pressure. *)
Definition blank_current_block : json :=
  JDict [("temp_c", JStr ""); ("temp_f", JFloat 59.9); ("cloud", JInt 75);
         ("wind_kph", JFloat 12.5); ("pressure_mb", JStr "")].

Definition blank_http (n : nat) (r : Request) : http_outcome :=
  HttpResponse 200 ""
    (Some (JDict [("location", sample_location_block "London");
                  ("current", blank_current_block)])).

Definition sample_env : Env :=
  {| float_repr := sample_float_repr;
     model_validate := sample_validate;
     http_send := sample_http;
     time_time := sample_clock |}.

Definition blank_env : Env :=
  {| float_repr := sample_float_repr;
     model_validate := sample_validate;
     http_send := blank_http;
     time_time := sample_clock |}.

Definition London : Location :=
  {| city := Some "London"; country := None; state := None; zip_code := None;
     ip_address := None; latitude := None; longitude := None |}.

Definition Paris : Location :=
  {| city := Some "Paris"; country := None; state := None; zip_code := None;
     ip_address := None; latitude := None; longitude := None |}.

Definition Oslo : Location :=
  {| city := Some "Oslo"; country := None; state := None; zip_code := None;
     ip_address := None; latitude := None; longitude := None |}.

(** The observation the sample provider reports for a city. *)
Definition sample_weather (name : string) : WeatherData :=
  {| wd_country := "United Kingdom"; wd_state := None; wd_city := name;
     time_zone := Some "Europe/London"; temp_c := Some 15.5%float;
     temp_f := Some 59.9%float; temp_k := None; clouds := 75;
     wind_speed_kph := 12.5%float; wind_degree := None; wind_dir := None;
     pressure_mb := None; pressure_in := None; precip_mm := None;
     precip_in := None; humidity := Some 60%Z; feelslike_c := None;
     feelslike_f := None; vis_km := None; vis_miles := None; uv := None;
     gust_kph := None; gust_mph := None; last_updated := None |}.

(** A pin in London that also names a city. *)
Definition London_pin : Location :=
  {| city := Some "X"; country := None; state := None; zip_code := None;
     ip_address := None; latitude := Some 51.5074%float;
     longitude := Some (-0.1278)%float |}.

Definition sample_client : WeatherClient :=
  {| api_key := "secret"; base_url := "https://api.weatherapi.com/v1"; timeout := 10 |}.

Definition empty_world (cache : option (gmap string (CacheEntry WeatherData))) : World :=
  {| svc_cache := cache; requests := []; clock_reads := 0 |}.

(** * The batch pipeline around the service *)

(** ** io/csv_writer.py *)

Module csv_writer.

Record CSVWriter : Type := {
  file_path : string;
  units : string;
  detailed : bool;
}.

(** [CSVWriter.__init__] *)
Definition init (file_path units : string) (detailed : bool) : CSVWriter :=
  {| file_path := file_path; units := upper units; detailed := detailed |}.

(** A value of a row dict: a text, an int or a float. *)
Inductive cell : Type :=
| CStr (s : string)
| CInt (z : Z)
| CFloat (x : float).

(** [x in (a, b, ...)] for strings *)
Definition among (x : string) (l : list string) : bool := existsb (String.eqb x) l.

(** The local [temp_fields] of [write]. *)
Definition temp_fields (self : CSVWriter) : list string :=
  (if among (units self) ["C"; "BOTH"; "ALL"] then ["temp_c"] else []) ++
  (if among (units self) ["F"; "BOTH"; "ALL"] then ["temp_f"] else []) ++
  (if among (units self) ["K"; "ALL"] then ["temp_k"] else []).

Definition detailed_fields : list string :=
  ["wind_degree"; "wind_dir"; "pressure_mb"; "pressure_in"; "precip_mm"; "precip_in";
   "humidity"; "feelslike_c"; "feelslike_f"; "vis_km"; "vis_miles"; "uv"; "gust_kph";
   "gust_mph"; "last_updated"].

(** The local [fieldnames] of [write]: the header of the file. *)
Definition fieldnames (self : CSVWriter) : list string :=
  ["country"; "state"; "city"; "zip_code"] ++ temp_fields self ++
  ["clouds"; "wind_speed_kph"] ++
  (if detailed self then detailed_fields else []).

(** [x or ""] for an optional text *)
Definition or_empty (o : option string) : string :=
  if truthy_str o then str_of o else "".

(** ["" if x is None else x] *)
Definition blank_if_None {A : Type} (f : A -> cell) (o : option A) : cell :=
  match o with
  | None => CStr ""
  | Some a => f a
  end.

(** The [row] dict built for one pair, as its items in insertion order. *)
Definition row (self : CSVWriter) (pair : Location * WeatherData) : list (string * cell) :=
  let location := fst pair in
  let weather_data := snd pair in
  [("country", CStr (or_empty (country location)));
   ("state", CStr (or_empty (state location)));
   ("city", CStr (or_empty (city location)));
   ("zip_code", CStr (or_empty (zip_code location)));
   ("clouds", CInt (clouds weather_data));
   ("wind_speed_kph", CFloat (wind_speed_kph weather_data))] ++
  (if among "temp_c" (temp_fields self)
   then [("temp_c", blank_if_None CFloat (temp_c weather_data))] else []) ++
  (if among "temp_f" (temp_fields self)
   then [("temp_f", blank_if_None CFloat (temp_f weather_data))] else []) ++
  (if among "temp_k" (temp_fields self)
   then [("temp_k", blank_if_None CFloat (temp_k weather_data))] else []) ++
  (if detailed self then
     [("wind_degree", blank_if_None CInt (wind_degree weather_data));
      ("wind_dir", blank_if_None CStr (wind_dir weather_data));
      ("pressure_mb", blank_if_None CFloat (pressure_mb weather_data));
      ("pressure_in", blank_if_None CFloat (pressure_in weather_data));
      ("precip_mm", blank_if_None CFloat (precip_mm weather_data));
      ("precip_in", blank_if_None CFloat (precip_in weather_data));
      ("humidity", blank_if_None CInt (humidity weather_data));
      ("feelslike_c", blank_if_None CFloat (feelslike_c weather_data));
      ("feelslike_f", blank_if_None CFloat (feelslike_f weather_data));
      ("vis_km", blank_if_None CFloat (vis_km weather_data));
      ("vis_miles", blank_if_None CFloat (vis_miles weather_data));
      ("uv", blank_if_None CFloat (uv weather_data));
      ("gust_kph", blank_if_None CFloat (gust_kph weather_data));
      ("gust_mph", blank_if_None CFloat (gust_mph weather_data));
      ("last_updated", blank_if_None CStr (last_updated weather_data))]
   else []).

(** What [write] hands to [csv.DictWriter]: nothing at all (the file is not
    even opened) for an empty [data], else the header and one row dict per
    pair, in the order of [data]. *)
Definition write (self : CSVWriter) (data : list (Location * WeatherData))
    : option (list string * list (list (string * cell))) :=
  match data with
  | [] => None
  | _ :: _ => Some (fieldnames self, map (row self) data)
  end.

End csv_writer.

(** ** io/csv_reader.py *)

Module csv_reader.

(** [Location.model_fields.keys()] *)
Definition model_fields : list string :=
  ["city"; "country"; "state"; "zip_code"; "ip_address"; "latitude"; "longitude"].

Section Reader.
(** [str.strip] *)
Variable strip : string -> string.
(** pydantic's reading of a text as a float, [None] when it rejects it *)
Variable parse_float : string -> option float.

(** A row of [csv.DictReader]: a value is a text, or [None] for a column the
    line is too short to fill.  [row_get] is [row.get(field)]. *)
Definition row_get (row : gmap string (option string)) (field : string) : option string :=
  match row !! field with
  | Some value => value
  | None => None
  end.

(** The value [_clean_row] stores for one field. *)
Definition clean_value (row : gmap string (option string)) (field : string)
    : option string :=
  match row_get row field with
  | None => None
  | Some value =>
      let value := strip value in
      if String.eqb value "" then None else Some value
  end.

(** [CSVReader._clean_row] *)
Definition _clean_row (row : gmap string (option string)) : list (string * option string) :=
  map (fun field => (field, clean_value row field)) model_fields.

(** The keyword argument [field] of [Location(...)] *)
Fixpoint kwarg (cleaned_row : list (string * option string)) (field : string)
    : option string :=
  match cleaned_row with
  | [] => None
  | (k, v) :: rest => if String.eqb k field then v else kwarg rest field
  end.

(** pydantic on an [Optional[float]] field given a text or [None] *)
Definition coordinate (o : option string) : Result (option float) :=
  match o with
  | None => Ok None
  | Some s =>
      match parse_float s with
      | Some x => Ok (Some x)
      | None => Raise ValidationError
      end
  end.

(** [Location] built from the cleaned row: the text fields are taken as they
    are, the coordinates are validated. *)
Definition Location_of (cleaned_row : list (string * option string)) : Result Location :=
  lat <-? coordinate (kwarg cleaned_row "latitude");;
  lon <-? coordinate (kwarg cleaned_row "longitude");;
  Ok {| city := kwarg cleaned_row "city";
        country := kwarg cleaned_row "country";
        state := kwarg cleaned_row "state";
        zip_code := kwarg cleaned_row "zip_code";
        ip_address := kwarg cleaned_row "ip_address";
        latitude := lat;
        longitude := lon |}.

(** The loop of [CSVReader.read] over the rows of the file: a row that does
    not validate is reported and skipped. *)
Fixpoint read_rows (rows : list (gmap string (option string))) : list Location :=
  match rows with
  | [] => []
  | row :: rest =>
      match Location_of (_clean_row row) with
      | Ok loc => loc :: read_rows rest
      | Raise _ => read_rows rest
      end
  end.
End Reader.

End csv_reader.

(** A [strip] for the examples: it removes spaces at both ends. *)
Fixpoint lstrip_spaces (s : string) : string :=
  match s with
  | String " " s' => lstrip_spaces s'
  | _ => s
  end.

Fixpoint rstrip_spaces (s : string) : string :=
  match s with
  | EmptyString => EmptyString
  | String c s' =>
      match c, rstrip_spaces s' with
      | " "%char, EmptyString => EmptyString
      | _, r => String c r
      end
  end.

Definition sample_strip (s : string) : string := rstrip_spaces (lstrip_spaces s).

(** A reading of floats for the examples: two coordinates are known. *)
Definition sample_parse_float (s : string) : option float :=
  if String.eqb s "51.5074" then Some 51.5074%float
  else if String.eqb s "-0.1278" then Some (-0.1278)%float
  else None.

(** Three rows: London with coordinates and a blank state, a row with a
    malformed latitude, and Paris with padded text. *)
Definition sample_rows : list (gmap string (option string)) :=
  [ {[ "city" := Some "London"; "country" := Some "United Kingdom"; "state" := Some "  ";
       "postal_code" := Some "EC2Y 5AA"; "latitude" := Some "51.5074";
       "longitude" := Some "-0.1278" ]};
    {[ "city" := Some "Atlantis"; "latitude" := Some "north"; "longitude" := None ]};
    {[ "city" := Some " Paris "; "country" := Some "France" ]} ].

(** The location the reader makes of the first sample row. *)
Definition London_csv : Location :=
  {| city := Some "London"; country := Some "United Kingdom"; state := None;
     zip_code := None; ip_address := None; latitude := Some 51.5074%float;
     longitude := Some (-0.1278)%float |}.

(** ** pipeline.py *)

Module pipeline.

(** [l[:n]] for an int [n]: the first [n] elements, or all but the last [-n]
    when [n] is negative. *)
Definition slice_to {A : Type} (n : Z) (l : list A) : list A :=
  if (0 <=? n)%Z then take (Z.to_nat n) l
  else take (length l - Z.to_nat (- n)) l.

(** [locations[:max_rows]] under [if max_rows is not None] *)
Definition limit (max_rows : option Z) (locations : list Location) : list Location :=
  match max_rows with
  | Some n => slice_to n locations
  | None => locations
  end.

(** The per-location loop: the query is formatted for the log line, then the
    service is asked; the first failure ends the run. *)
Fixpoint fetch_each `{Env} (service : weather_service.WeatherService)
    (locations : list Location) (units : string) : M (list WeatherData) :=
  match locations with
  | [] => mret []
  | loc :: rest =>
      logged <- lift (to_query loc);;
      wd <- weather_service.get_current_weather service loc (Some units);;
      weather_list <- fetch_each service rest units;;
      mret (wd :: weather_list)
  end.

(** [zip(locations, weather_list)] *)
Fixpoint zip {A B : Type} (l : list A) (k : list B) : list (A * B) :=
  match l, k with
  | a :: l', b :: k' => (a, b) :: zip l' k'
  | _, _ => []
  end.

(** [run_pipeline], from the locations the reader returned to what the
    writer is given.  The settings provide the client's key and base URL; the
    service starts with a fresh cache, or with none. *)
Definition run_pipeline `{Env} (weather_api_key weather_api_base_url : string)
    (read : list Location) (output_csv units : string) (use_cache : bool)
    (cache_ttl : Z) (max_rows : option Z) (use_bulk detailed : bool)
    : M (option (list string * list (list (string * csv_writer.cell)))) :=
  fun w =>
    let client := {| api_key := weather_api_key; base_url := weather_api_base_url;
                     timeout := 10 |} in
    let cache := if use_cache then Some ∅ else None in
    let service := weather_service.init client cache_ttl units in
    let locations := limit max_rows read in
    let fetch :=
      if use_bulk then weather_service.get_current_weather_bulk service locations (Some units)
      else fetch_each service locations units in
    (weather_list <- fetch;;
     let results := zip locations weather_list in
     mret (csv_writer.write (csv_writer.init output_csv units detailed) results))
      (with_cache cache w).

End pipeline.

(** ** More of the vocabulary and of the sample environment *)

(** Kelvin as [_apply_units] derives it from a Celsius and a Fahrenheit
    value. *)
Definition kelvin_from (c f : option float) : option float :=
  match c, f with
  | Some c, _ => Some (c + 273.15)%float
  | None, Some f => Some ((f - 32) * 5 / 9 + 273.15)%float
  | None, None => None
  end.

(** A provider that is down. *)
Definition down_http (n : nat) (r : Request) : http_outcome :=
  HttpResponse 503 "Service Unavailable" None.

Definition down_env : Env :=
  {| float_repr := sample_float_repr;
     model_validate := sample_validate;
     http_send := down_http;
     time_time := sample_clock |}.

(** A provider whose bulk answer has a good item for position 0 and, for
    position 1, an item whose location block lacks [country]. *)
Definition broken_item : json :=
  JDict [("query", JDict [("custom_id", JStr "1"); ("q", JStr "Paris");
                          ("location", JDict [("name", JStr "Paris")]);
                          ("current", sample_current_block)])].

Definition broken_http (n : nat) (r : Request) : http_outcome :=
  HttpResponse 200 ""
    (Some (JDict [("bulk", JList [sample_item (JStr "0") "London"; broken_item])])).

Definition broken_env : Env :=
  {| float_repr := sample_float_repr;
     model_validate := sample_validate;
     http_send := broken_http;
     time_time := sample_clock |}.

(** A location with no field set. *)
Definition Nowhere : Location :=
  {| city := None; country := None; state := None; zip_code := None;
     ip_address := None; latitude := None; longitude := None |}.

(** * Properties *)

(** ** Order of binary64 values *)

Lemma SFcompare_antisym (a b : spec_float) :
  SFcompare b a = option_map CompOpp (SFcompare a b).
Proof.
  destruct a as [sa | sa | | sa ma ea], b as [sb | sb | | sb mb eb]; simpl;
    try reflexivity;
    try (destruct sa; reflexivity); try (destruct sb; reflexivity);
    try (destruct sa, sb; reflexivity).
  destruct sa, sb; simpl; try reflexivity; f_equal;
    rewrite (Z.compare_antisym ea eb);
    replace (Pos.compare_cont Eq mb ma) with (CompOpp (Pos.compare_cont Eq ma mb))
      by (rewrite Pos.compare_cont_antisym; reflexivity);
    destruct (ea ?= eb)%Z; simpl; try reflexivity;
    destruct (Pos.compare_cont Eq ma mb); reflexivity.
Qed.

Lemma float_leb_not_gt (x y : float) : (x <=? y)%float = true -> (y <? x)%float = false.
Proof.
  rewrite leb_spec, ltb_spec. unfold SFleb, SFltb.
  rewrite (SFcompare_antisym (Prim2SF x) (Prim2SF y)).
  destruct (SFcompare (Prim2SF x) (Prim2SF y)) as [[]|]; simpl; congruence.
Qed.

Lemma float_ltb_leb (x y : float) : (x <? y)%float = true -> (x <=? y)%float = true.
Proof.
  rewrite leb_spec, ltb_spec. unfold SFleb, SFltb.
  destruct (SFcompare (Prim2SF x) (Prim2SF y)) as [[]|]; simpl; congruence.
Qed.

(** ** The time-bound cache *)

Section MemoryCacheFacts.
Context {V : Type}.
Implicit Types (self : gmap string (CacheEntry V)) (key : string) (v : V).

Lemma MemoryCache_set_Ok self now key v ttl self' :
  MemoryCache_set self now key v ttl = Ok self' ->
  exists t, float_of_int ttl = Ok t /\
    self' = <[key := {| value := v; expires_at := (now + t)%float |}]> self.
Proof.
  unfold MemoryCache_set. destruct (float_of_int ttl) as [t|e]; [|discriminate].
  intros [= <-]. eauto.
Qed.

Lemma MemoryCache_get_fresh self now key e :
  self !! key = Some e -> (expires_at e <? now)%float = false ->
  MemoryCache_get self now key = (Some (value e), self).
Proof. intros Hk Hlt. unfold MemoryCache_get. rewrite Hk, Hlt. reflexivity. Qed.

Lemma MemoryCache_get_expired self now key e :
  self !! key = Some e -> (expires_at e <? now)%float = true ->
  MemoryCache_get self now key = (None, delete key self).
Proof. intros Hk Hlt. unfold MemoryCache_get. rewrite Hk, Hlt. reflexivity. Qed.

Lemma MemoryCache_get_absent self now key :
  self !! key = None -> MemoryCache_get self now key = (None, self).
Proof. intros Hk. unfold MemoryCache_get. rewrite Hk. reflexivity. Qed.
End MemoryCacheFacts.

(** Strictly before its expiry an entry is returned. *)
Lemma MemoryCache_get_before_expiry {V : Type} (self : gmap string (CacheEntry V))
    (now : float) (key : string) (e : CacheEntry V) :
  self !! key = Some e -> (now <? expires_at e)%float = true ->
  MemoryCache_get self now key = (Some (value e), self).
Proof.
  intros Hk Hlt. apply MemoryCache_get_fresh; [exact Hk|].
  apply float_leb_not_gt, float_ltb_leb, Hlt.
Qed.

(** C4, as the specification states it, fails when the clock reads exactly
    [expires_at]: the entry set at time 1000 with a ttl of 60 expires at 1060,
    the current time 1060 is greater than or equal to it, and [get] still
    returns the value and keeps the entry. *)
Lemma cache_get_at_expiry_returns_value :
  let store := <["k" := {| value := 7%Z; expires_at := 1060%float |}]> (∅ : gmap string (CacheEntry Z)) in
  MemoryCache_set (∅ : gmap string (CacheEntry Z)) 1000%float "k" 7%Z 60 = Ok store /\
  (1060 <=? 1060)%float = true /\
  (1060 <? 1060)%float = false /\
  MemoryCache_get store 1060%float "k" = (Some 7%Z, store).
Proof. vm_compute. repeat split. Qed.

(** C4 (amended): for every store, key [k], value [v] and ttl (an int that
    converts to a float [t]), [set(k, v, ttl)] succeeds and overwrites
    whatever entry [k] had with [(v, expires_at = now + ttl)]; afterwards
    [get(k)] returns [v] and leaves the store as it is while the current time
    is at most [expires_at], and returns absent and removes the entry once the
    current time is strictly greater than [expires_at]. *)
Theorem cache_set_then_get {V : Type} (self : gmap string (CacheEntry V))
    (t_set : float) (k : string) (v : V) (ttl : Z) (t : float) :
  float_of_int ttl = Ok t ->
  let expires := (t_set + t)%float in
  let self' := <[k := {| value := v; expires_at := expires |}]> self in
  MemoryCache_set self t_set k v ttl = Ok self' /\
  (forall now, (now <=? expires)%float = true ->
     MemoryCache_get self' now k = (Some v, self')) /\
  (forall now, (expires <? now)%float = true ->
     MemoryCache_get self' now k = (None, delete k self') /\
     delete k self' !! k = None).
Proof.
  intros Ht expires self'. split; [|split].
  - unfold MemoryCache_set. rewrite Ht. reflexivity.
  - intros now Hle. apply float_leb_not_gt in Hle.
    apply (MemoryCache_get_fresh self' now k {| value := v; expires_at := expires |});
      [apply lookup_insert_eq | exact Hle].
  - intros now Hgt. split; [|apply lookup_delete_eq].
    apply (MemoryCache_get_expired self' now k {| value := v; expires_at := expires |});
      [apply lookup_insert_eq | exact Hgt].
Qed.

Lemma cache_set_then_get_witness :
  float_of_int 60 = Ok 60%float /\
  MemoryCache_set (∅ : gmap string (CacheEntry Z)) 1000%float "k" 7%Z 60
    = Ok (<["k" := {| value := 7%Z; expires_at := (1000 + 60)%float |}]> ∅).
Proof.
  split; [reflexivity|].
  apply (cache_set_then_get (∅ : gmap string (CacheEntry Z)) 1000%float "k" 7%Z 60 60%float).
  reflexivity.
Defined.

(** ** Query resolution *)

Section ToQuery.
Context `{Env}.

(** The code is the table of section 4.1 read with Python truthiness as the
    presence test. *)
Lemma to_query_first_match (l : Location) :
  to_query l = first_match (precedence truthy_float truthy_str l).
Proof.
  unfold to_query, precedence, first_match.
  destruct (truthy_float (latitude l) && truthy_float (longitude l)); [reflexivity|].
  destruct (truthy_str (zip_code l)); [reflexivity|].
  destruct (truthy_str (ip_address l)); [reflexivity|].
  destruct (truthy_str (city l)); simpl.
  - destruct (truthy_str (country l)); [reflexivity|].
    destruct (truthy_str (state l)); reflexivity.
  - destruct (truthy_str (state l)); [reflexivity|].
    destruct (truthy_str (country l)); reflexivity.
Qed.

Lemma truthy_str_unset (o : option string) :
  truthy_str (if truthy_str o then o else None) = truthy_str o.
Proof. destruct (truthy_str o) eqn:E; [exact E | reflexivity]. Qed.

Lemma truthy_float_unset (o : option float) :
  truthy_float (if truthy_float o then o else None) = truthy_float o.
Proof. destruct (truthy_float o) eqn:E; [exact E | reflexivity]. Qed.

Lemma to_query_unset_falsy (l : Location) : to_query l = to_query (unset_falsy l).
Proof.
  unfold to_query, unset_falsy; simpl.
  rewrite !truthy_str_unset, !truthy_float_unset.
  destruct (truthy_float (latitude l)), (truthy_float (longitude l)),
    (truthy_str (zip_code l)), (truthy_str (ip_address l)), (truthy_str (city l)),
    (truthy_str (country l)), (truthy_str (state l)); reflexivity.
Qed.

Lemma to_query_no_coordinates (l : Location) :
  truthy_float (latitude l) && truthy_float (longitude l) = false ->
  to_query l = to_query (without_coordinates l).
Proof. intros Hc. unfold to_query. rewrite Hc. reflexivity. Qed.
End ToQuery.

(** C1, as the specification states it, fails when "present" is read as
    "set": a zip code set to the empty string is present, so rule 2 would
    yield it, yet the code resolves the location to its city. *)
Lemma to_query_empty_zip_falls_through :
  let l := {| city := Some "Paris"; country := None; state := None;
              zip_code := Some ""; ip_address := None;
              latitude := None; longitude := None |} in
  @first_match (@precedence sample_env is_set is_set l) = Ok "" /\
  @to_query sample_env l = Ok "Paris".
Proof. split; reflexivity. Qed.

(** C1 (amended): for every Location whose coordinates are each unset or
    non-zero, [to_query] resolves by the nine-step precedence of section 4.1,
    first match wins, where a coordinate is present when it is set and a text
    field is present when it is set to a non-empty string; and a Location with
    no field set fails (the code raises [ValueError]). *)
Theorem to_query_precedence `{Env} (l : Location) :
  coordinates_regular l ->
  to_query l = first_match (precedence is_set truthy_str l) /\
  (l = {| city := None; country := None; state := None; zip_code := None;
          ip_address := None; latitude := None; longitude := None |} ->
   to_query l = Raise ValueError).
Proof.
  intros [Hlat Hlon]. split.
  - rewrite to_query_first_match. unfold precedence. rewrite Hlat, Hlon. reflexivity.
  - intros ->. reflexivity.
Qed.

Lemma to_query_precedence_witness :
  coordinates_regular London_pin /\
  @to_query sample_env London_pin = Ok "51.5074,-0.1278".
Proof.
  assert (Hreg : coordinates_regular London_pin) by (split; reflexivity).
  split; [exact Hreg|].
  rewrite (proj1 (@to_query_precedence sample_env London_pin Hreg)). reflexivity.
Defined.

(** C10, as stated, fails for a location that also carries a zip code: with
    latitude 0.0, a non-zero longitude and a city, the code returns the zip
    code, not the city. *)
Lemma to_query_zero_latitude_prefers_zip :
  let l := {| city := Some "London"; country := None; state := None;
              zip_code := Some "90210"; ip_address := None;
              latitude := Some 0%float; longitude := Some 5%float |} in
  truthy_float (longitude l) = true /\ truthy_str (city l) = true /\
  @to_query sample_env l = Ok "90210".
Proof. repeat split. Qed.

(** C10 (amended): [to_query] tests presence by truthiness, so a coordinate
    equal to zero and a text field equal to the empty string count as unset:
    the query is the one of the location with those fields removed; a location
    one of whose coordinates is unset or zero never takes the coordinate form
    and resolves as it would without coordinates; and for every Location with
    latitude 0.0, a city set to a non-empty string, and no non-empty zip code,
    IP address, country or state, [to_query] returns the city. *)
Theorem to_query_truthiness `{Env} (l : Location) :
  to_query l = to_query (unset_falsy l) /\
  (truthy_float (latitude l) = false \/ truthy_float (longitude l) = false ->
   to_query l = to_query (without_coordinates l)) /\
  (forall c, latitude l = Some 0%float -> city l = Some c -> c <> "" ->
     truthy_str (zip_code l) = false -> truthy_str (ip_address l) = false ->
     truthy_str (country l) = false -> truthy_str (state l) = false ->
     to_query l = Ok c).
Proof.
  split; [apply to_query_unset_falsy | split].
  - intros Hc. apply to_query_no_coordinates.
    destruct Hc as [-> | ->]; [reflexivity | apply andb_false_r].
  - intros c Hlat Hcity Hc Hzip Hip Hcountry Hstate.
    unfold to_query. rewrite Hlat, Hzip, Hip, Hcountry, Hstate, Hcity. simpl.
    destruct (String.eqb_spec c ""); [contradiction | reflexivity].
Qed.

(** ** Unit normalization *)

(** The three temperatures and [common_fields] are all there is to a
    [WeatherData]. *)
Lemma WeatherData_ext (a b : WeatherData) :
  temp_c a = temp_c b -> temp_f a = temp_f b -> temp_k a = temp_k b ->
  common_fields a = common_fields b -> a = b.
Proof.
  destruct a, b; unfold common_fields; simpl.
  intros -> -> -> Hc. injection Hc as -> -> -> -> -> -> -> -> -> -> -> -> -> ->
    -> -> -> -> -> -> ->. reflexivity.
Qed.

Lemma common_fields_with_temps (wd : WeatherData) (c f k : option float) :
  common_fields (with_temps wd c f k) = common_fields wd.
Proof. reflexivity. Qed.

Lemma mode_set_cases (units : string) :
  (units = "C" /\ mode_set units = Some (true, false, false)) \/
  (units = "F" /\ mode_set units = Some (false, true, false)) \/
  (units = "K" /\ mode_set units = Some (false, false, true)) \/
  (units = "BOTH" /\ mode_set units = Some (true, true, false)) \/
  (units = "ALL" /\ mode_set units = Some (true, true, true)) \/
  (units <> "C" /\ units <> "F" /\ units <> "K" /\ units <> "BOTH" /\ units <> "ALL" /\
   mode_set units = None).
Proof.
  unfold mode_set.
  destruct (String.eqb_spec units "C") as [->|HC]; [left; split; reflexivity|].
  destruct (String.eqb_spec units "F") as [->|HF]; [right; left; split; reflexivity|].
  destruct (String.eqb_spec units "K") as [->|HK];
    [right; right; left; split; reflexivity|].
  destruct (String.eqb_spec units "BOTH") as [->|HB];
    [right; right; right; left; split; reflexivity|].
  destruct (String.eqb_spec units "ALL") as [->|HA];
    [right; right; right; right; left; split; reflexivity|].
  right; right; right; right; right. repeat split; assumption.
Qed.

Lemma _apply_units_unrecognized (wd : WeatherData) (units : string) :
  mode_set units = None -> _apply_units wd units = wd.
Proof.
  unfold mode_set, _apply_units.
  destruct (String.eqb units "C"); [discriminate|].
  destruct (String.eqb units "F"); [discriminate|].
  destruct (String.eqb units "K"); [discriminate|].
  destruct (String.eqb units "BOTH"); [discriminate|].
  destruct (String.eqb units "ALL"); [discriminate|].
  reflexivity.
Qed.

(** The local [base_k] is the Kelvin of section 4.4 under the modes K and ALL,
    and absent under every other string. *)
Lemma base_k_spec (wd : WeatherData) (units : string) :
  base_k wd units = if in_K_ALL units then kelvin_of wd else None.
Proof.
  unfold base_k, kelvin_of. destruct (in_K_ALL units); [|reflexivity].
  destruct (temp_c wd), (temp_f wd); reflexivity.
Qed.

(** C2: under a recognized mode the result carries exactly the temperatures
    of the mode's set (Celsius and Fahrenheit as the raw observation has them,
    Kelvin as derived) and absent for every temperature outside it, whatever
    the raw observation had there; the non-temperature fields are those of the
    raw observation; and under a string that is not a mode the result is the
    raw observation itself. *)
Theorem apply_units_populates_mode_set (wd : WeatherData) (units : string) :
  match mode_set units with
  | Some (c, f, k) =>
      temp_c (_apply_units wd units) = (if c then temp_c wd else None) /\
      temp_f (_apply_units wd units) = (if f then temp_f wd else None) /\
      temp_k (_apply_units wd units) = (if k then kelvin_of wd else None) /\
      common_fields (_apply_units wd units) = common_fields wd
  | None => _apply_units wd units = wd
  end.
Proof.
  destruct (mode_set_cases units) as
    [[-> ->] | [[-> ->] | [[-> ->] | [[-> ->] | [[-> ->] | (_ & _ & _ & _ & _ & Hn)]]]]].
  - simpl. auto.
  - simpl. auto.
  - simpl. rewrite base_k_spec. auto.
  - simpl. auto.
  - simpl. rewrite base_k_spec. auto.
  - rewrite Hn. apply _apply_units_unrecognized, Hn.
Qed.

(** C3: Kelvin is computed only under the modes K and ALL and only from a
    Celsius or a Fahrenheit value; under those modes the result's Kelvin is
    C + 273.15 whenever Celsius is there, (F - 32) * 5 / 9 + 273.15 when
    Celsius is absent and Fahrenheit is there, and absent when both are.  The
    arithmetic is binary64, evaluated left to right as the code writes it. *)
Theorem kelvin_derivation (wd : WeatherData) (units : string) :
  (forall k, base_k wd units = Some k ->
     (units = "K" \/ units = "ALL") /\ (is_Some (temp_c wd) \/ is_Some (temp_f wd))) /\
  (units = "K" \/ units = "ALL" ->
     temp_k (_apply_units wd units) = base_k wd units /\
     (forall c, temp_c wd = Some c ->
        temp_k (_apply_units wd units) = Some (c + 273.15)%float) /\
     (forall f, temp_c wd = None -> temp_f wd = Some f ->
        temp_k (_apply_units wd units) = Some ((f - 32) * 5 / 9 + 273.15)%float) /\
     (temp_c wd = None -> temp_f wd = None -> temp_k (_apply_units wd units) = None)).
Proof.
  split.
  - intros k. rewrite base_k_spec. unfold in_K_ALL, kelvin_of.
    destruct (String.eqb_spec units "K") as [->|HK]; simpl.
    + destruct (temp_c wd), (temp_f wd); intros [= <-] || discriminate; eauto.
    + destruct (String.eqb_spec units "ALL") as [->|HA]; [|discriminate].
      destruct (temp_c wd), (temp_f wd); intros [= <-] || discriminate; eauto.
  - intros Hm.
    assert (Hk : temp_k (_apply_units wd units) = kelvin_of wd /\
                 base_k wd units = kelvin_of wd).
    { destruct Hm as [-> | ->]; split; try apply base_k_spec;
        simpl; apply base_k_spec. }
    destruct Hk as [Hk Hb]. rewrite Hk, Hb. unfold kelvin_of. repeat split.
    + intros c ->. reflexivity.
    + intros f -> ->. reflexivity.
    + intros -> ->. reflexivity.
Qed.

(** The two examples of section 8. *)
Example kelvin_from_celsius_only :
  forall wd, temp_c wd = Some 15.5%float -> temp_f wd = None ->
    temp_k (_apply_units wd "K") = Some 288.65%float /\
    temp_c (_apply_units wd "K") = None /\ temp_f (_apply_units wd "K") = None.
Proof.
  intros wd Hc Hf. repeat split. simpl. rewrite base_k_spec. unfold kelvin_of.
  rewrite Hc. reflexivity.
Qed.

(** C8, as stated for every mode, fails under K: the first application keeps
    only the derived Kelvin, so the second finds neither Celsius nor
    Fahrenheit to derive it from and returns an observation without Kelvin. *)
Lemma apply_units_K_twice_loses_kelvin :
  let wd := {| wd_country := "United Kingdom"; wd_state := None; wd_city := "London";
               time_zone := None; temp_c := Some 15.5%float; temp_f := Some 59.9%float;
               temp_k := None; clouds := 75; wind_speed_kph := 12.5%float;
               wind_degree := None; wind_dir := None; pressure_mb := None;
               pressure_in := None; precip_mm := None; precip_in := None;
               humidity := None; feelslike_c := None; feelslike_f := None;
               vis_km := None; vis_miles := None; uv := None; gust_kph := None;
               gust_mph := None; last_updated := None |} in
  temp_k (_apply_units wd "K") = Some 288.65%float /\
  temp_k (_apply_units (_apply_units wd "K") "K") = None.
Proof. split; reflexivity. Qed.

(** C8 (amended): re-applying the same mode gives the same observation for
    every string other than "K" (the modes C, F, BOTH and ALL, and every
    string that is not a mode), and under K exactly when the raw observation
    has neither Celsius nor Fahrenheit. *)
Theorem apply_units_idempotent_iff (wd : WeatherData) (units : string) :
  _apply_units (_apply_units wd units) units = _apply_units wd units <->
  (units <> "K" \/ (temp_c wd = None /\ temp_f wd = None)).
Proof.
  destruct (mode_set_cases units) as
    [[-> _] | [[-> _] | [[-> _] | [[-> _] | [[-> _] | (_ & _ & HK & _ & _ & Hn)]]]]].
  - split; [left; discriminate | reflexivity].
  - split; [left; discriminate | reflexivity].
  - split.
    + intros Heq. right. apply (f_equal temp_k) in Heq. simpl in Heq.
      rewrite !base_k_spec in Heq. unfold kelvin_of in Heq. simpl in Heq.
      destruct (temp_c wd), (temp_f wd); try discriminate; split; reflexivity.
    + intros [Hne | [Hc Hf]]; [contradiction Hne; reflexivity|].
      apply WeatherData_ext; try reflexivity. simpl.
      rewrite !base_k_spec. unfold kelvin_of. simpl. rewrite Hc, Hf. reflexivity.
  - split; [left; discriminate | reflexivity].
  - split; [left; discriminate|]. intros _.
    apply WeatherData_ext; reflexivity.
  - split; [left; exact HK|]. intros _.
    rewrite !(_apply_units_unrecognized _ _ Hn). reflexivity.
Qed.

(** ** The provider client *)

Ltac destruct_rbind :=
  repeat match goal with
  | H : rbind ?r _ = Ok _ |- _ =>
      let E := fresh "E" in destruct r eqn:E; simpl in H; [|discriminate H]
  end.

Lemma get_numeric_blank (d : list (string * json)) (key : string) :
  assoc d key = Some (JStr "") -> get_numeric (JDict d) key = Ok JNull.
Proof. intros Hk. unfold get_numeric. simpl. rewrite Hk. reflexivity. Qed.

Lemma get_numeric_missing (d : list (string * json)) (key : string) :
  assoc d key = None -> get_numeric (JDict d) key = Ok JNull.
Proof. intros Hk. unfold get_numeric. simpl. rewrite Hk. reflexivity. Qed.

(** The four fields the client reads with a plain [get] reach the model as
    the payload has them. *)
Lemma weather_kwargs_plain_fields (location_block current_block : json) (kw : WeatherKwargs) :
  weather_kwargs location_block current_block = Ok kw ->
  py_get current_block "temp_c" JNull = Ok (kw_temp_c kw) /\
  py_get current_block "temp_f" JNull = Ok (kw_temp_f kw) /\
  py_get current_block "cloud" (JInt 0) = Ok (kw_clouds kw) /\
  py_get current_block "wind_kph" (JFloat 0.0) = Ok (kw_wind_speed_kph kw).
Proof.
  unfold weather_kwargs. intros Hkw. destruct_rbind.
  injection Hkw as <-. simpl. auto.
Qed.

(** The thirteen fields the client reads through [get_numeric]. *)
Lemma weather_kwargs_numeric_fields (location_block current_block : json) (kw : WeatherKwargs) :
  weather_kwargs location_block current_block = Ok kw ->
  get_numeric current_block "wind_degree" = Ok (kw_wind_degree kw) /\
  get_numeric current_block "pressure_mb" = Ok (kw_pressure_mb kw) /\
  get_numeric current_block "pressure_in" = Ok (kw_pressure_in kw) /\
  get_numeric current_block "precip_mm" = Ok (kw_precip_mm kw) /\
  get_numeric current_block "precip_in" = Ok (kw_precip_in kw) /\
  get_numeric current_block "humidity" = Ok (kw_humidity kw) /\
  get_numeric current_block "feelslike_c" = Ok (kw_feelslike_c kw) /\
  get_numeric current_block "feelslike_f" = Ok (kw_feelslike_f kw) /\
  get_numeric current_block "vis_km" = Ok (kw_vis_km kw) /\
  get_numeric current_block "vis_miles" = Ok (kw_vis_miles kw) /\
  get_numeric current_block "uv" = Ok (kw_uv kw) /\
  get_numeric current_block "gust_kph" = Ok (kw_gust_kph kw) /\
  get_numeric current_block "gust_mph" = Ok (kw_gust_mph kw).
Proof.
  unfold weather_kwargs. intros Hkw. destruct_rbind.
  injection Hkw as <-. simpl. repeat split; reflexivity.
Qed.

(** C9: the code at a payload whose [temp_c] and [pressure_mb] are both the
    empty string.  The pressure, read through [get_numeric], reaches the model
    as absent; the temperature, read with a plain [get], reaches it as the
    empty string, and a validator that rejects a blank float (as pydantic
    does) makes the whole fetch raise. *)
Theorem blank_temp_c_reaches_model :
  exists kw,
    weather_kwargs (sample_location_block "London") blank_current_block = Ok kw /\
    kw_pressure_mb kw = JNull /\
    kw_temp_c kw = JStr "" /\
    fst (@weather_client.get_current_weather blank_env sample_client "London"
           (empty_world None)) = Raise ValidationError.
Proof. eexists. repeat split. Qed.

(** The same for every payload: a blank [temp_c], [temp_f], [cloud] or
    [wind_kph] is passed on unchanged. *)
Lemma weather_kwargs_blank_not_coerced (location_block : json)
    (d : list (string * json)) (kw : WeatherKwargs) (key : string) (dflt : json) :
  weather_kwargs location_block (JDict d) = Ok kw ->
  assoc d key = Some (JStr "") ->
  (key = "temp_c" -> kw_temp_c kw = JStr "") /\
  (key = "temp_f" -> kw_temp_f kw = JStr "") /\
  (key = "cloud" -> kw_clouds kw = JStr "") /\
  (key = "wind_kph" -> kw_wind_speed_kph kw = JStr "").
Proof.
  intros Hkw Hk. apply weather_kwargs_plain_fields in Hkw as (Hc & Hf & Hcl & Hw).
  simpl in *. repeat split; intros ->; rewrite Hk in *; simpl in *; congruence.
Qed.

(** A call of the single-location method issues exactly one request, and
    touches neither the cache nor the clock. *)
Lemma client_get_run `{Env} (self : WeatherClient) (query : string) (w : World) :
  snd (weather_client.get_current_weather self query w)
  = add_request (single_request self query) w.
Proof.
  unfold weather_client.get_current_weather, mbind, send.
  fold (single_request self query).
  destruct (http_send (length (requests w)) (single_request self query))
    as [msg | status text body]; [reflexivity|].
  destruct (negb (status =? 200)%Z); reflexivity.
Qed.

(** Its outcome depends on the world only through the number of requests
    sent before. *)
Lemma client_get_frame `{Env} (self : WeatherClient) (query : string) (w : World)
    (c : option (gmap string (CacheEntry WeatherData))) (n : nat) :
  fst (weather_client.get_current_weather self query
         {| svc_cache := c; requests := requests w; clock_reads := n |})
  = fst (weather_client.get_current_weather self query w).
Proof.
  unfold weather_client.get_current_weather, mbind, send. simpl.
  fold (single_request self query).
  destruct (http_send (length (requests w)) (single_request self query))
    as [msg | status text body]; [reflexivity|].
  destruct (negb (status =? 200)%Z); reflexivity.
Qed.

(** *** The bulk method: tagging *)

Lemma imap_tagged_shift (idx : nat) (qs : list string) :
  imap (fun i => tagged_query (idx + S i)) qs = imap (fun i => tagged_query (S idx + i)) qs.
Proof. apply imap_ext. intros i q _. f_equal. lia. Qed.

Lemma tag_locations_spec `{Env} (locations : list Location) :
  forall idx bulk_locations id_to_index r,
    weather_client.tag_locations idx locations bulk_locations id_to_index = Ok r ->
    exists qs,
      Forall2 (fun loc q => to_query loc = Ok q) locations qs /\
      fst r = (bulk_locations ++ imap (fun i => tagged_query (idx + i)) qs)%list /\
      forall s j, snd r !! s = Some j <->
        (idx <= j < idx + length locations /\ s = pretty j) \/
        (id_to_index !! s = Some j /\
         forall i, idx <= i < idx + length locations -> s <> pretty i).
Proof.
  induction locations as [|loc rest IH]; intros idx bl m r Hr; simpl in Hr.
  - injection Hr as <-. exists []. simpl. split; [constructor|]. split.
    + rewrite app_nil_r. reflexivity.
    + intros s j. split.
      * intros Hs. right. split; [exact Hs|]. intros i Hi. lia.
      * intros [[Hj _] | [Hs _]]; [lia | exact Hs].
  - destruct (to_query loc) as [q|e] eqn:Hq; simpl in Hr; [|discriminate].
    apply IH in Hr as (qs & Hqs & Hfst & Hsnd).
    exists (q :: qs). split; [constructor; assumption|]. split.
    + rewrite Hfst, <- app_assoc. simpl. unfold compose.
      rewrite Nat.add_0_r. do 2 f_equal.
      rewrite imap_tagged_shift. reflexivity.
    + intros s j. rewrite Hsnd. simpl. split.
      * intros [[Hj ->] | [Hs Hne]].
        -- left. split; [lia | reflexivity].
        -- destruct (decide (s = pretty idx)) as [->|Hsi].
           ++ rewrite lookup_insert_eq in Hs. injection Hs as <-.
              left. split; [lia | reflexivity].
           ++ rewrite lookup_insert_ne in Hs by congruence.
              right. split; [exact Hs|]. intros i Hi.
              destruct (decide (i = idx)) as [->|Hii]; [exact Hsi|].
              apply Hne. lia.
      * intros [[Hj ->] | [Hs Hne]].
        -- destruct (decide (j = idx)) as [->|Hji].
           ++ right. split; [apply lookup_insert_eq|].
              intros i Hi Heq. apply (inj pretty) in Heq. lia.
           ++ left. split; [lia | reflexivity].
        -- right. split.
           ++ rewrite lookup_insert_ne; [exact Hs|]. intros Heq.
              apply (Hne idx); [lia | congruence].
           ++ intros i Hi. apply Hne. lia.
Qed.

Lemma tag_locations_indexes `{Env} (locations : list Location) r :
  weather_client.tag_locations 0 locations [] ∅ = Ok r ->
  exists qs,
    Forall2 (fun loc q => to_query loc = Ok q) locations qs /\
    fst r = imap tagged_query qs /\
    indexes (length locations) (snd r).
Proof.
  intros Hr. apply tag_locations_spec in Hr as (qs & Hqs & Hfst & Hsnd).
  exists qs. split; [exact Hqs|]. split; [exact Hfst|].
  intros s j. rewrite Hsnd. simpl. split.
  - intros [[Hj ->] | [Hs _]]; [split; [lia | reflexivity]|].
    rewrite lookup_empty in Hs. discriminate.
  - intros [Hj ->]. left. split; [lia | reflexivity].
Qed.

(** Every location that resolves is tagged: the first loop fails only when
    [to_query] does. *)
Lemma tag_locations_total `{Env} (locations : list Location) (qs : list string) :
  Forall2 (fun loc q => to_query loc = Ok q) locations qs ->
  forall idx bulk_locations id_to_index,
    exists r, weather_client.tag_locations idx locations bulk_locations id_to_index = Ok r.
Proof.
  induction 1 as [|loc q rest qs' Hq _ IH]; intros idx bl m; simpl.
  - eauto.
  - rewrite Hq. simpl. apply IH.
Qed.

(** *** The bulk method: re-indexing the answer *)

Lemma last_tagged_cons (s : string) (item : json) (rest : list json) :
  last_tagged s (item :: rest) =
    match last_tagged s rest with
    | Some it => Some it
    | None => if decide (item_custom_id item = Some s) then Some item else None
    end.
Proof.
  unfold last_tagged. rewrite filter_cons.
  destruct (decide (item_custom_id item = Some s)) as [Hs|Hs].
  - rewrite last_cons. reflexivity.
  - destruct (last _); reflexivity.
Qed.

(** One item: it is skipped, or it stores its observation at the position
    its correlation id names. *)
Lemma process_item_spec `{Env} (id_to_index : gmap string nat)
    (results res : list (option WeatherData)) (item : json) :
  weather_client.process_item id_to_index results item = Ok res ->
  match item_custom_id item with
  | Some s =>
      match id_to_index !! s with
      | Some idx => exists wd, item_weather item = Ok wd /\ res = <[idx := Some wd]> results
      | None => res = results
      end
  | None => res = results
  end.
Proof.
  unfold weather_client.process_item, item_custom_id, item_weather.
  destruct (py_get item "query" (JDict [])) as [qb|e]; simpl; [|discriminate].
  destruct (py_get qb "custom_id" JNull) as [cid|e]; simpl; [|discriminate].
  destruct (py_get qb "location" (JDict [])) as [lb|e]; simpl; [|discriminate].
  destruct (py_get qb "current" (JDict [])) as [cb|e]; simpl; [|discriminate].
  destruct cid as [| b | z | x | s | l | d]; try (intros [= <-]; reflexivity);
    try discriminate.
  destruct (id_to_index !! s) as [idx|]; [|intros [= <-]; reflexivity].
  destruct (build_weather lb cb) as [wd|e]; simpl; [|discriminate].
  intros [= <-]. eauto.
Qed.

Lemma process_items_spec `{Env} (n : nat) (id_to_index : gmap string nat)
    (bulk_items : list json) :
  indexes n id_to_index ->
  forall results res,
    length results = n ->
    weather_client.process_items id_to_index results bulk_items = Ok res ->
    length res = n /\
    forall i, i < n ->
      match last_tagged (pretty i) bulk_items with
      | Some item => exists wd, item_weather item = Ok wd /\ res !! i = Some (Some wd)
      | None => res !! i = results !! i
      end.
Proof.
  intros Hidx. induction bulk_items as [|item rest IH]; intros results res Hlen Hres;
    simpl in Hres.
  - injection Hres as <-. split; [exact Hlen|]. intros i Hi. reflexivity.
  - destruct (weather_client.process_item id_to_index results item) as [results'|e] eqn:Hitem;
      simpl in Hres; [|discriminate].
    apply process_item_spec in Hitem.
    assert (Hlen' : length results' = n).
    { destruct (item_custom_id item) as [s|]; [|congruence].
      destruct (id_to_index !! s) as [idx|]; [|congruence].
      destruct Hitem as (wd & _ & ->). rewrite length_insert. exact Hlen. }
    destruct (IH results' res Hlen' Hres) as [Hn Hlook]. split; [exact Hn|].
    intros i Hi. specialize (Hlook i Hi). rewrite last_tagged_cons.
    destruct (last_tagged (pretty i) rest) as [it|]; [exact Hlook|].
    rewrite Hlook. clear Hlook.
    destruct (decide (item_custom_id item = Some (pretty i))) as [Hs|Hs].
    + rewrite Hs in Hitem.
      assert (Hi' : id_to_index !! pretty i = Some i) by (apply Hidx; auto).
      rewrite Hi' in Hitem. destruct Hitem as (wd & Hwd & ->).
      exists wd. split; [exact Hwd|]. apply list_lookup_insert_eq. lia.
    + destruct (item_custom_id item) as [s|]; [|congruence].
      destruct (id_to_index !! s) as [idx|] eqn:Hm; [|congruence].
      destruct Hitem as (wd & _ & ->).
      apply list_lookup_insert_ne. intros ->.
      apply Hidx in Hm as [_ ->]. congruence.
Qed.

(** Started from [[None] * n], the second loop leaves at every position the
    sub-result of that position's correlation id. *)
Lemma process_items_answer `{Env} (n : nat) (id_to_index : gmap string nat)
    (bulk_items : list json) (res : list (option WeatherData)) :
  indexes n id_to_index ->
  weather_client.process_items id_to_index (replicate n None) bulk_items = Ok res ->
  length res = n /\
  forall i, i < n -> res !! i = Some (answer_for (pretty i) bulk_items).
Proof.
  intros Hidx Hres.
  destruct (process_items_spec n id_to_index bulk_items Hidx _ _
              (length_replicate n None) Hres) as [Hn Hlook].
  split; [exact Hn|]. intros i Hi. specialize (Hlook i Hi).
  unfold answer_for.
  destruct (last_tagged (pretty i) bulk_items) as [item|].
  - destruct Hlook as (wd & -> & ->). reflexivity.
  - rewrite Hlook. apply lookup_replicate_2. exact Hi.
Qed.

(** The sub-result for an id does not depend on where its item stands in
    the answer: when at most one item carries the id, any reordering of the
    answer gives the same sub-result. *)
Lemma answer_for_order_independent `{Env} (custom_id : string)
    (bulk_items bulk_items' : list json) :
  bulk_items ≡ₚ bulk_items' ->
  length (filter (fun item => item_custom_id item = Some custom_id) bulk_items) <= 1 ->
  answer_for custom_id bulk_items = answer_for custom_id bulk_items'.
Proof.
  intros Hperm Hlen. unfold answer_for, last_tagged.
  assert (Hf : filter (fun item => item_custom_id item = Some custom_id) bulk_items
               ≡ₚ filter (fun item => item_custom_id item = Some custom_id) bulk_items')
    by (rewrite Hperm; reflexivity).
  destruct (filter _ bulk_items) as [|x [|y r]]; simpl in Hlen.
  - apply Permutation_nil_l in Hf. rewrite Hf. reflexivity.
  - apply Permutation_singleton_l in Hf. rewrite Hf. reflexivity.
  - lia.
Qed.

Lemma process_items_total `{Env} (n : nat) (id_to_index : gmap string nat)
    (bulk_items : list json) :
  indexes n id_to_index ->
  Forall (item_accepted n) bulk_items ->
  forall results, exists res,
    weather_client.process_items id_to_index results bulk_items = Ok res.
Proof.
  intros Hidx. induction 1 as [|item rest Hitem _ IH]; intros results; simpl; [eauto|].
  destruct Hitem as (qb & cid & lb & cb & Hq & Hc & Hl & Hcb & Hok).
  unfold weather_client.process_item. rewrite Hq. simpl. rewrite Hc, Hl, Hcb. simpl.
  destruct cid as [| b | z | x | s | l | d]; simpl; try apply IH; try contradiction.
  destruct (id_to_index !! s) as [idx|] eqn:Hm; simpl; [|apply IH].
  apply Hidx in Hm as [Hlt ->].
  destruct Hok as [wd ->]; [eauto|]. simpl. apply IH.
Qed.

(** C7: on an empty input [fetchBulk] returns the empty sequence and sends
    nothing.  Otherwise, when it returns, it has sent one batched request in
    which the location at position [i] is tagged with the correlation id
    [str(i)], its result has the length of the input, and the element at every
    position [i] is the sub-result the answer carries under the id [str(i)] --
    whatever the position of that item in the answer -- and absent when no
    item of the answer carries that id (items under an id that was not sent
    change nothing).  And it does return whenever every location resolves and
    the provider answers 200 with a body whose [bulk] items are accepted. *)
Theorem fetchBulk_reindexes_by_id `{Env} (self : WeatherClient) :
  (forall w, weather_client.get_current_weather_bulk self [] w = (Ok [], w)) /\
  (forall locations w results w',
     weather_client.get_current_weather_bulk self locations w = (Ok results, w') ->
     length results = length locations /\
     (locations <> [] ->
      exists qs text raw bulk bulk_items,
        Forall2 (fun loc q => to_query loc = Ok q) locations qs /\
        w' = add_request (bulk_request self qs) w /\
        http_send (length (requests w)) (bulk_request self qs)
          = HttpResponse 200 text (Some raw) /\
        py_get raw "bulk" (JList []) = Ok bulk /\
        iter_items bulk = Ok bulk_items /\
        forall i, i < length locations ->
          results !! i = Some (answer_for (pretty i) bulk_items))) /\
  (forall locations qs w text raw bulk bulk_items,
     locations <> [] ->
     Forall2 (fun loc q => to_query loc = Ok q) locations qs ->
     http_send (length (requests w)) (bulk_request self qs)
       = HttpResponse 200 text (Some raw) ->
     py_get raw "bulk" (JList []) = Ok bulk ->
     iter_items bulk = Ok bulk_items ->
     Forall (item_accepted (length locations)) bulk_items ->
     exists results,
       weather_client.get_current_weather_bulk self locations w
       = (Ok results, add_request (bulk_request self qs) w)).
Proof.
  split; [reflexivity|]. split.
  - intros locations w results w' Hrun.
    destruct locations as [|loc rest].
    { injection Hrun as <- <-. split; [reflexivity | congruence]. }
    unfold weather_client.get_current_weather_bulk in Hrun.
    remember (loc :: rest) as locations eqn:Hlocs.
    unfold mbind, lift in Hrun.
    destruct (weather_client.tag_locations 0 locations [] ∅) as [tagged|e] eqn:Htag;
      [|discriminate].
    apply tag_locations_indexes in Htag as (qs & Hqs & Hfst & Hidx).
    unfold send in Hrun. rewrite Hfst in Hrun. fold (bulk_request self qs) in Hrun.
    destruct (http_send (length (requests w)) (bulk_request self qs))
      as [msg | status text body] eqn:Hsend; [discriminate|].
    destruct (status =? 200)%Z eqn:Hstatus; simpl in Hrun; [|discriminate].
    apply Z.eqb_eq in Hstatus as ->.
    destruct body as [raw|]; simpl in Hrun; [|discriminate].
    destruct (py_get raw "bulk" (JList [])) as [bulk|e] eqn:Hbulk; simpl in Hrun;
      [|discriminate].
    destruct (iter_items bulk) as [bulk_items|e] eqn:Hitems; simpl in Hrun;
      [|discriminate].
    injection Hrun as Hres <-.
    apply (process_items_answer (length locations)) in Hres as [Hlen Hlook];
      [|exact Hidx].
    split; [exact Hlen|]. intros _.
    exists qs, text, raw, bulk, bulk_items. repeat split; assumption.
  - intros locations qs w text raw bulk bulk_items Hne Hqs Hsend Hbulk Hitems Hok.
    destruct locations as [|loc rest]; [congruence|].
    unfold weather_client.get_current_weather_bulk.
    remember (loc :: rest) as locations eqn:Hlocs.
    unfold mbind, lift.
    destruct (tag_locations_total locations qs Hqs 0 [] ∅) as [tagged Htag].
    rewrite Htag.
    apply tag_locations_indexes in Htag as (qs' & Hqs' & Hfst & Hidx).
    assert (qs' = qs) as ->.
    { clear -Hqs Hqs'. revert qs' Hqs'.
      induction Hqs as [|l q ls qs Hq _ IH]; intros qs' Hqs'; inversion Hqs'; subst;
        [reflexivity|]. f_equal; [congruence | apply IH; assumption]. }
    unfold send. rewrite Hfst. fold (bulk_request self qs). rewrite Hsend. simpl.
    rewrite Hbulk. simpl. rewrite Hitems. simpl.
    destruct (process_items_total (length locations) (snd tagged) bulk_items Hidx Hok
                (replicate (length locations) None)) as [res ->].
    exists res. reflexivity.
Qed.

(** A run of C7 in the sample environment: three locations, an answer whose
    items come back as Oslo, an unknown id, London.  The result is in request
    order, with absent for Paris. *)
Lemma fetchBulk_sample_run :
  @weather_client.get_current_weather_bulk sample_env sample_client
     [London; Paris; Oslo] (empty_world None)
  = (Ok [Some (sample_weather "London"); None; Some (sample_weather "Oslo")],
     add_request (bulk_request sample_client ["London"; "Paris"; "Oslo"])
       (empty_world None)) /\
  length [Some (sample_weather "London"); None; Some (sample_weather "Oslo")]
  = length [London; Paris; Oslo].
Proof.
  assert (Hrun :
    @weather_client.get_current_weather_bulk sample_env sample_client
       [London; Paris; Oslo] (empty_world None)
    = (Ok [Some (sample_weather "London"); None; Some (sample_weather "Oslo")],
       add_request (bulk_request sample_client ["London"; "Paris"; "Oslo"])
         (empty_world None))) by (vm_compute; reflexivity).
  split; [exact Hrun|].
  exact (proj1 (proj1 (proj2 (@fetchBulk_reindexes_by_id sample_env sample_client))
                  _ _ _ _ Hrun)).
Defined.

(** ** The retrieval service *)

(** A call of the bulk method of the client sees the world only through the
    requests sent before, and changes nothing but them. *)
Lemma client_bulk_frame `{Env} (self : WeatherClient) (locations : list Location)
    (w : World) (c : option (gmap string (CacheEntry WeatherData))) (n : nat) :
  weather_client.get_current_weather_bulk self locations
    {| svc_cache := c; requests := requests w; clock_reads := n |}
  = (fst (weather_client.get_current_weather_bulk self locations w),
     {| svc_cache := c;
        requests := requests (snd (weather_client.get_current_weather_bulk self locations w));
        clock_reads := n |}).
Proof.
  unfold weather_client.get_current_weather_bulk.
  destruct locations as [|loc rest]; [reflexivity|].
  unfold mbind, lift, send. simpl.
  destruct (rbind (to_query loc) _) as [tagged|e]; [|reflexivity]. simpl.
  destruct (http_send _ _) as [msg | status text body]; [reflexivity|].
  destruct (negb (status =? 200)%Z); reflexivity.
Qed.

Lemma process_results_present (raw_results : list (option WeatherData)) (units : string) :
  weather_service.process_results raw_results units
  = map (fun wd => _apply_units wd units) (present raw_results).
Proof.
  induction raw_results as [|[wd|] rest IH]; simpl; [reflexivity | | exact IH].
  f_equal. exact IH.
Qed.

(** [present] keeps the non-absent elements, in the order of the sequence. *)
Lemma present_filter {A : Type} (l : list (option A)) :
  Some <$> present l = filter (fun o => is_Some o) l.
Proof.
  induction l as [|[a|] l IH]; [reflexivity | |].
  - rewrite filter_cons_True by eauto. unfold present in *. simpl. f_equal. exact IH.
  - rewrite filter_cons_False by (intros [a Ha]; discriminate). exact IH.
Qed.

Lemma length_present {A : Type} (l : list (option A)) : length (present l) <= length l.
Proof.
  induction l as [|[a|] l IH]; [reflexivity | |].
  - change (S (length (present l)) <= S (length l)). lia.
  - change (length (present l) <= S (length l)). lia.
Qed.

(** C6: on an empty input [getBulk] returns the empty sequence and leaves the
    world as it is (no Client call).  On any other input it returns what the
    Client's [fetchBulk] returned with the absent elements dropped and the
    Normalizer applied to every other element, in the Client's order (so the
    output is at most as long as the Client's result); a failure of the Client
    is passed on; the cache and the clock are as before the call; and neither
    the result nor the requests depend on what the cache holds. *)
Theorem getBulk_drops_absent `{Env} (self : weather_service.WeatherService)
    (units : option string) :
  (forall w, weather_service.get_current_weather_bulk self [] units w = (Ok [], w)) /\
  (forall locations w, locations <> [] ->
     weather_service.get_current_weather_bulk self locations units w
     = (match fst (weather_client.get_current_weather_bulk
                     (weather_service.client self) locations w) with
        | Ok raw_results =>
            Ok (map (fun wd => _apply_units wd (weather_service.effective_units self units))
                  (present raw_results))
        | Raise e => Raise e
        end,
        snd (weather_client.get_current_weather_bulk
               (weather_service.client self) locations w))) /\
  (forall raw_results : list (option WeatherData),
     Some <$> present raw_results = filter (fun o => is_Some o) raw_results /\
     length (map (fun wd => _apply_units wd (weather_service.effective_units self units))
               (present raw_results)) <= length raw_results) /\
  (forall locations w c,
     weather_service.get_current_weather_bulk self locations units (with_cache c w)
     = (fst (weather_service.get_current_weather_bulk self locations units w),
        with_cache c (snd (weather_service.get_current_weather_bulk self locations units w)))) /\
  (forall locations w,
     let w' := snd (weather_service.get_current_weather_bulk self locations units w) in
     svc_cache w' = svc_cache w /\ clock_reads w' = clock_reads w).
Proof.
  assert (Hrun : forall locations w, locations <> [] ->
     weather_service.get_current_weather_bulk self locations units w
     = (match fst (weather_client.get_current_weather_bulk
                     (weather_service.client self) locations w) with
        | Ok raw_results =>
            Ok (map (fun wd => _apply_units wd (weather_service.effective_units self units))
                  (present raw_results))
        | Raise e => Raise e
        end,
        snd (weather_client.get_current_weather_bulk
               (weather_service.client self) locations w))).
  { intros locations w Hne. destruct locations as [|loc rest]; [congruence|].
    unfold weather_service.get_current_weather_bulk, mbind, mret.
    destruct (weather_client.get_current_weather_bulk _ _ w) as [[raw|e] w1]; simpl;
      [|reflexivity].
    rewrite process_results_present. reflexivity. }
  assert (Hframe : forall locations w c n,
     weather_service.get_current_weather_bulk self locations units
       {| svc_cache := c; requests := requests w; clock_reads := n |}
     = (fst (weather_service.get_current_weather_bulk self locations units w),
        {| svc_cache := c;
           requests := requests (snd (weather_service.get_current_weather_bulk
                                        self locations units w));
           clock_reads := n |})).
  { intros locations w c n. destruct locations as [|loc rest]; [reflexivity|].
    rewrite !Hrun by discriminate.
    rewrite (client_bulk_frame _ _ w c n). simpl. reflexivity. }
  assert (Hsame : forall locations w,
     svc_cache (snd (weather_service.get_current_weather_bulk self locations units w))
       = svc_cache w /\
     clock_reads (snd (weather_service.get_current_weather_bulk self locations units w))
       = clock_reads w).
  { intros locations w.
    pose proof (Hframe locations w (svc_cache w) (clock_reads w)) as Hf.
    destruct w as [c reqs n]; simpl in *. rewrite Hf. simpl. auto. }
  split; [reflexivity|]. split; [exact Hrun|]. split; [|split].
  - intros raw. split; [apply present_filter|].
    rewrite length_map. apply length_present.
  - intros locations w c. unfold with_cache.
    rewrite (Hframe locations w c (clock_reads w)).
    destruct (Hsame locations w) as [_ ->]. reflexivity.
  - intros locations w. simpl. apply Hsame.
Qed.

(** A run of C6 in the sample environment: the Client leaves Paris absent, the
    service returns London and Oslo in Kelvin, in that order, with the cache
    as it was. *)
Lemma getBulk_sample_run :
  let svc := weather_service.init sample_client 900 "c" in
  @weather_service.get_current_weather_bulk sample_env svc [London; Paris; Oslo]
     (Some "k") (empty_world (Some ∅))
  = (Ok [_apply_units (sample_weather "London") "K";
         _apply_units (sample_weather "Oslo") "K"],
     add_request (bulk_request sample_client ["London"; "Paris"; "Oslo"])
       (empty_world (Some ∅))).
Proof.
  intros svc.
  rewrite (proj1 (proj2 (@getBulk_drops_absent sample_env svc (Some "k"))))
    by discriminate.
  vm_compute. reflexivity.
Defined.

(** *** The single-location path *)

Section GetOne.
Context `{Env}.
Variables (self : weather_service.WeatherService) (location : Location)
  (units : option string).

(** A hit: the entry's value is returned, nothing is requested, the store is
    as it was. *)
Lemma getOne_hit (w : World) (store : gmap string (CacheEntry WeatherData))
    (q : string) (e : CacheEntry WeatherData) :
  svc_cache w = Some store ->
  to_query location = Ok q ->
  store !! cache_key_of self units q = Some e ->
  (expires_at e <? time_time (clock_reads w))%float = false ->
  weather_service.get_current_weather self location units w
  = (Ok (value e),
     {| svc_cache := Some store; requests := requests w;
        clock_reads := S (clock_reads w) |}).
Proof.
  intros Hc Hq He Hfresh.
  unfold weather_service.get_current_weather, mbind, lift. rewrite Hq.
  fold (cache_key_of self units q). unfold weather_service.cache_get. rewrite Hc.
  rewrite (MemoryCache_get_fresh store _ _ e He Hfresh). simpl.
  rewrite He. reflexivity.
Qed.

(** A miss: one request is sent, and the normalized answer is stored under
    the key with the configured TTL and returned. *)
Lemma getOne_miss (w : World) (store : gmap string (CacheEntry WeatherData))
    (q : string) (raw : WeatherData) (t : float) :
  svc_cache w = Some store ->
  to_query location = Ok q ->
  fst (MemoryCache_get store (time_time (clock_reads w)) (cache_key_of self units q)) = None ->
  fst (weather_client.get_current_weather (weather_service.client self) q w) = Ok raw ->
  float_of_int (weather_service.cache_ttl self) = Ok t ->
  let data := _apply_units raw (weather_service.effective_units self units) in
  let reads := if bool_decide (is_Some (store !! cache_key_of self units q))
               then S (clock_reads w) else clock_reads w in
  weather_service.get_current_weather self location units w
  = (Ok data,
     {| svc_cache :=
          Some (<[cache_key_of self units q :=
                    {| value := data; expires_at := (time_time reads + t)%float |}]>
                  (snd (MemoryCache_get store (time_time (clock_reads w)) (cache_key_of self units q))));
        requests := requests w ++ [single_request (weather_service.client self) q];
        clock_reads := S reads |}).
Proof.
  intros Hc Hq Hmiss Hraw Ht data reads.
  unfold weather_service.get_current_weather, mbind, lift. rewrite Hq.
  fold (cache_key_of self units q). unfold weather_service.cache_get. rewrite Hc.
  rewrite Hmiss. fold reads.
  set (store_g := snd (MemoryCache_get store (time_time (clock_reads w)) (cache_key_of self units q))).
  set (w_g := {| svc_cache := Some store_g; requests := requests w; clock_reads := reads |}).
  pose proof (client_get_frame (weather_service.client self) q w (Some store_g) reads) as Hfr.
  pose proof (client_get_run (weather_service.client self) q w_g) as Hrun.
  fold w_g in Hfr. rewrite Hraw in Hfr.
  destruct (weather_client.get_current_weather (weather_service.client self) q w_g)
    as [r w_c]. simpl in Hfr, Hrun. subst r w_c.
  unfold weather_service.cache_set, add_request, mret. simpl.
  unfold MemoryCache_set. rewrite Ht. reflexivity.
Qed.
End GetOne.

Lemma effective_units_spec (self : weather_service.WeatherService) (units : option string) :
  (forall u, units = Some u -> u <> "" -> weather_service.effective_units self units = upper u) /\
  (units = None \/ units = Some "" ->
   weather_service.effective_units self units = upper (weather_service.default_units self)).
Proof.
  unfold weather_service.effective_units. split.
  - intros u -> Hu. simpl. destruct (String.eqb_spec u ""); [contradiction | reflexivity].
  - intros [-> | ->]; reflexivity.
Qed.

(** C5: with a cache present, [getOne] works under the key
    ["{query}|units={mode}"], the mode being the given units (or, when none
    are given, the configured default) in upper case.  On a hit it returns the
    cached value and sends nothing.  On a miss it sends exactly one
    single-location request, normalizes the answer, stores it under the key
    with [expires_at] = the time of the store + the configured TTL, and returns
    it; a second call with the same location and units whose clock reading is
    at most that [expires_at] returns the same value and sends nothing. *)
Theorem getOne_uses_cache `{Env} (self : weather_service.WeatherService)
    (location : Location) (units : option string) (w : World)
    (store : gmap string (CacheEntry WeatherData)) (q : string) (t : float) :
  svc_cache w = Some store ->
  to_query location = Ok q ->
  float_of_int (weather_service.cache_ttl self) = Ok t ->
  let mode := weather_service.effective_units self units in
  let key := q ++ "|units=" ++ mode in
  let now := time_time (clock_reads w) in
  ((forall u, units = Some u -> u <> "" -> mode = upper u) /\
   (units = None \/ units = Some "" -> mode = upper (weather_service.default_units self))) /\
  (forall data, fst (MemoryCache_get store now key) = Some data ->
     exists w',
       weather_service.get_current_weather self location units w = (Ok data, w') /\
       requests w' = requests w /\ svc_cache w' = Some store) /\
  (fst (MemoryCache_get store now key) = None ->
   forall raw,
     fst (weather_client.get_current_weather (weather_service.client self) q w) = Ok raw ->
     let data := _apply_units raw mode in
     exists w1 t_set,
       weather_service.get_current_weather self location units w = (Ok data, w1) /\
       requests w1 = (requests w ++ [single_request (weather_service.client self) q])%list /\
       t_set = time_time (pred (clock_reads w1)) /\
       svc_cache w1
       = Some (<[key := {| value := data; expires_at := (t_set + t)%float |}]>
                 (snd (MemoryCache_get store now key))) /\
       ((time_time (clock_reads w1) <=? t_set + t)%float = true ->
        exists w2,
          weather_service.get_current_weather self location units w1 = (Ok data, w2) /\
          requests w2 = requests w1 /\ svc_cache w2 = svc_cache w1)).
Proof.
  intros Hc Hq Ht mode key now. split; [apply effective_units_spec|]. split.
  - intros data Hhit. unfold MemoryCache_get in Hhit.
    destruct (store !! key) as [e|] eqn:He; [|discriminate].
    destruct (expires_at e <? now)%float eqn:Hfresh; [discriminate|].
    injection Hhit as <-.
    eexists. split; [apply (getOne_hit self location units w store q e); assumption|].
    split; reflexivity.
  - intros Hmiss raw Hraw data.
    pose proof (getOne_miss self location units w store q raw t Hc Hq Hmiss Hraw Ht)
      as Hrun. cbv zeta in Hrun. fold mode key now data in Hrun.
    unfold cache_key_of in Hrun. fold mode key in Hrun.
    eexists. eexists. split; [exact Hrun|]. simpl.
    split; [reflexivity|]. split; [reflexivity|]. split; [reflexivity|].
    intros Hin. apply float_leb_not_gt in Hin.
    set (reads := if bool_decide (is_Some (store !! key))
                  then S (clock_reads w) else clock_reads w) in *.
    pose (entry := {| value := data; expires_at := (time_time reads + t)%float |}).
    eexists. split.
    + eapply (getOne_hit self location units _ _ q entry);
        [reflexivity | exact Hq | apply lookup_insert_eq | exact Hin].
    + split; reflexivity.
Qed.

(** A run of C5 in the sample environment, from an empty cache: the first
    call sends one request and returns London in Celsius; the second call,
    ten seconds later, returns the same observation and sends nothing. *)
Lemma getOne_uses_cache_witness :
  exists w1 w2,
    @weather_service.get_current_weather sample_env
       (weather_service.init sample_client 900 "c") London None (empty_world (Some ∅))
    = (Ok (_apply_units (sample_weather "London") "C"), w1) /\
    requests w1 = [single_request sample_client "London"] /\
    @weather_service.get_current_weather sample_env
       (weather_service.init sample_client 900 "c") London None w1
    = (Ok (_apply_units (sample_weather "London") "C"), w2) /\
    requests w2 = requests w1.
Proof.
  pose (svc := weather_service.init sample_client 900 "c").
  pose (store := (∅ : gmap string (CacheEntry WeatherData))).
  pose (w := empty_world (Some store)).
  assert (Httl : float_of_int (weather_service.cache_ttl svc) = Ok 900%float)
    by (vm_compute; reflexivity).
  assert (Hraw : fst (@weather_client.get_current_weather sample_env
                        (weather_service.client svc) "London" w)
                 = Ok (sample_weather "London"))
    by (vm_compute; reflexivity).
  assert (Hmiss : fst (MemoryCache_get store (@time_time sample_env (clock_reads w))
                         ("London" ++ "|units=" ++ weather_service.effective_units svc None))
                  = None)
    by (vm_compute; reflexivity).
  destruct (proj2 (proj2 (@getOne_uses_cache sample_env svc London None w store "London"
                            900%float eq_refl eq_refl Httl))
              Hmiss (sample_weather "London") Hraw)
    as (w1 & t_set & Hrun & Hreq & Hts & Hcache & Hsecond).
  assert (Hreads : clock_reads w1 = 1).
  { apply (f_equal (fun r => clock_reads (snd r))) in Hrun. simpl in Hrun.
    rewrite <- Hrun. vm_compute. reflexivity. }
  rewrite Hreads in Hts, Hsecond. subst t_set.
  destruct (Hsecond ltac:(vm_compute; reflexivity)) as (w2 & Hrun2 & Hreq2 & _).
  exists w1, w2. repeat split; assumption.
Defined.

(** ** The examples of section 8, run in the sample environment *)

Example to_query_city_only : @to_query sample_env London = Ok "London".
Proof. reflexivity. Qed.

Example to_query_empty_location :
  @to_query sample_env
     {| city := None; country := None; state := None; zip_code := None;
        ip_address := None; latitude := None; longitude := None |}
  = Raise ValueError.
Proof. reflexivity. Qed.

Example effective_units_lower_case :
  weather_service.effective_units (weather_service.init sample_client 900 "c") (Some "both")
  = "BOTH" /\
  weather_service.effective_units (weather_service.init sample_client 900 "c") None = "C".
Proof. split; reflexivity. Qed.

Example kelvin_from_fahrenheit_only :
  temp_k (_apply_units
            (with_temps (sample_weather "London") None (Some 59.9%float) None) "ALL")
  = Some ((59.9 - 32) * 5 / 9 + 273.15)%float.
Proof. reflexivity. Qed.

Example getBulk_empty :
  @weather_service.get_current_weather_bulk sample_env
     (weather_service.init sample_client 900 "C") [] None (empty_world (Some ∅))
  = (Ok [], empty_world (Some ∅)).
Proof. reflexivity. Qed.

(** Past its TTL the entry is gone and the provider is asked again: a store
    whose entry for London expired at 1000 is read at 1000 + 10. *)
Example getOne_after_expiry :
  let svc := weather_service.init sample_client 60 "C" in
  let stale := {| value := _apply_units (sample_weather "London") "C";
                  expires_at := 1000%float |} in
  let w := {| svc_cache := Some (<["London|units=C" := stale]> ∅);
              requests := []; clock_reads := 1 |} in
  requests (snd (@weather_service.get_current_weather sample_env svc London None w))
  = [single_request sample_client "London"].
Proof. vm_compute. reflexivity. Qed.

(** * Further properties of the modelled code *)

(** ** [Location.to_query]: failure and the shape of a query *)

Lemma append_comma_nonempty (a b : string) : a ++ "," ++ b <> "".
Proof. destruct a; simpl; discriminate. Qed.

Lemma truthy_str_nonempty (o : option string) : truthy_str o = true -> str_of o <> "".
Proof.
  destruct o as [s|]; simpl; [|discriminate].
  destruct (String.eqb_spec s ""); [discriminate | auto].
Qed.

(** X1: [to_query] raises nothing but [ValueError], and raises it exactly when no
    text field is a non-empty string and the coordinates are not both
    non-zero numbers; a lone latitude or a lone longitude does not resolve. *)
Theorem to_query_failure `{Env} (l : Location) :
  (forall e, to_query l = Raise e -> e = ValueError) /\
  (to_query l = Raise ValueError <->
     truthy_float (latitude l) && truthy_float (longitude l) = false /\
     truthy_str (zip_code l) = false /\
     truthy_str (ip_address l) = false /\
     truthy_str (city l) = false /\
     truthy_str (state l) = false /\
     truthy_str (country l) = false).
Proof.
  unfold to_query.
  destruct (truthy_float (latitude l) && truthy_float (longitude l)),
    (truthy_str (zip_code l)), (truthy_str (ip_address l)), (truthy_str (city l)),
    (truthy_str (state l)), (truthy_str (country l)); simpl;
    (split; [intros e He; congruence | split; [intros He | intros (? & ? & ? & ? & ? & ?)];
       try discriminate; try congruence; repeat split; reflexivity]).
Qed.

(** X2: A query that [to_query] returns is never the empty string. *)
Theorem to_query_nonempty `{Env} (l : Location) (q : string) :
  to_query l = Ok q -> q <> "".
Proof.
  unfold to_query.
  destruct (truthy_float (latitude l) && truthy_float (longitude l)).
  { intros [= <-]. apply append_comma_nonempty. }
  destruct (truthy_str (zip_code l)) eqn:Hzip.
  { intros [= <-]. apply truthy_str_nonempty, Hzip. }
  destruct (truthy_str (ip_address l)) eqn:Hip.
  { intros [= <-]. apply truthy_str_nonempty, Hip. }
  destruct (truthy_str (city l)) eqn:Hcity; simpl.
  - destruct (truthy_str (country l)).
    { intros [= <-]. apply append_comma_nonempty. }
    destruct (truthy_str (state l)).
    { intros [= <-]. apply append_comma_nonempty. }
    intros [= <-]. apply truthy_str_nonempty, Hcity.
  - destruct (truthy_str (state l)) eqn:Hstate.
    { intros [= <-]. apply truthy_str_nonempty, Hstate. }
    destruct (truthy_str (country l)) eqn:Hcountry; [|discriminate].
    intros [= <-]. apply truthy_str_nonempty, Hcountry.
Qed.

Lemma to_query_nonempty_witness :
  @to_query sample_env London_pin = Ok "51.5074,-0.1278" /\ "51.5074,-0.1278" <> "".
Proof.
  assert (Hq : @to_query sample_env London_pin = Ok "51.5074,-0.1278") by reflexivity.
  split; [exact Hq|].
  exact (@to_query_nonempty sample_env London_pin "51.5074,-0.1278" Hq).
Defined.

(** ** [MemoryCache]: keys are independent, absence is stable, writes overwrite *)

(** X3: Operations on one key leave every other key alone: a [get] changes no
    other entry, a [set] changes no other entry, and a [get] of another key
    after the [set] returns what it returned before. *)
Theorem MemoryCache_keys_independent {V : Type} (self self' : gmap string (CacheEntry V))
    (t_set now : float) (k k' : string) (v : V) (ttl : Z) :
  k <> k' ->
  MemoryCache_set self t_set k v ttl = Ok self' ->
  snd (MemoryCache_get self now k) !! k' = self !! k' /\
  self' !! k' = self !! k' /\
  fst (MemoryCache_get self' now k') = fst (MemoryCache_get self now k') /\
  snd (MemoryCache_get self' now k') !! k = self' !! k.
Proof.
  intros Hne Hset. apply MemoryCache_set_Ok in Hset as (t & _ & ->).
  assert (Hother : forall (s : gmap string (CacheEntry V)) a b,
            a <> b -> snd (MemoryCache_get s now a) !! b = s !! b).
  { intros s a b Hab. unfold MemoryCache_get.
    destruct (s !! a) as [e|]; [|reflexivity].
    destruct (expires_at e <? now)%float; simpl; [|reflexivity].
    apply lookup_delete_ne. exact Hab. }
  split; [apply Hother; exact Hne|].
  split; [apply lookup_insert_ne; exact Hne|].
  split; [|apply Hother; congruence].
  unfold MemoryCache_get. rewrite lookup_insert_ne by exact Hne.
  destruct (self !! k') as [e|]; [|reflexivity].
  destruct (expires_at e <? now)%float; reflexivity.
Qed.

Lemma MemoryCache_keys_independent_witness :
  MemoryCache_set (∅ : gmap string (CacheEntry Z)) 1000%float "a" 1%Z 60
    = Ok (<["a" := {| value := 1%Z; expires_at := 1060%float |}]> ∅) /\
  fst (MemoryCache_get (<["a" := {| value := 1%Z; expires_at := 1060%float |}]> ∅)
         1010%float "b")
  = fst (MemoryCache_get (∅ : gmap string (CacheEntry Z)) 1010%float "b").
Proof.
  assert (Hset : MemoryCache_set (∅ : gmap string (CacheEntry Z)) 1000%float "a" 1%Z 60
                 = Ok (<["a" := {| value := 1%Z; expires_at := 1060%float |}]> ∅))
    by (vm_compute; reflexivity).
  split; [exact Hset|].
  exact (proj1 (proj2 (proj2
           (MemoryCache_keys_independent ∅ _ 1000%float 1010%float "a" "b" 1%Z 60
              ltac:(discriminate) Hset)))).
Defined.

(** X4: Once [get] has reported a key absent, it reports it absent at every
    later read, whatever the clock says then, and the store no longer changes:
    an expired entry is gone for good, and a read is repeatable. *)
Theorem MemoryCache_absent_stays_absent {V : Type} (self : gmap string (CacheEntry V))
    (now later : float) (k : string) :
  (fst (MemoryCache_get self now k) = None ->
   MemoryCache_get (snd (MemoryCache_get self now k)) later k
   = (None, snd (MemoryCache_get self now k))) /\
  MemoryCache_get (snd (MemoryCache_get self now k)) now k = MemoryCache_get self now k.
Proof.
  destruct (self !! k) as [e|] eqn:Hk.
  - destruct (expires_at e <? now)%float eqn:Hexp.
    + rewrite (MemoryCache_get_expired self now k e Hk Hexp). simpl.
      split; [intros _|]; apply MemoryCache_get_absent, lookup_delete_eq.
    + rewrite (MemoryCache_get_fresh self now k e Hk Hexp). simpl.
      split; [discriminate|]. apply MemoryCache_get_fresh; assumption.
  - rewrite (MemoryCache_get_absent self now k Hk). simpl.
    split; [intros _|]; apply MemoryCache_get_absent, Hk.
Qed.

(** The last write wins: a second [set] of a key leaves the store that the
    second [set] alone would have left. *)
Theorem MemoryCache_set_overwrites {V : Type} (self self1 : gmap string (CacheEntry V))
    (t1 t2 : float) (k : string) (v1 v2 : V) (ttl1 ttl2 : Z) :
  MemoryCache_set self t1 k v1 ttl1 = Ok self1 ->
  MemoryCache_set self1 t2 k v2 ttl2 = MemoryCache_set self t2 k v2 ttl2.
Proof.
  intros Hset. apply MemoryCache_set_Ok in Hset as (t & _ & ->).
  unfold MemoryCache_set. destruct (float_of_int ttl2); [|reflexivity].
  rewrite insert_insert_eq. reflexivity.
Qed.

Lemma MemoryCache_set_overwrites_witness :
  MemoryCache_set (∅ : gmap string (CacheEntry Z)) 1000%float "a" 1%Z 60
    = Ok (<["a" := {| value := 1%Z; expires_at := 1060%float |}]> ∅) /\
  MemoryCache_set (<["a" := {| value := 1%Z; expires_at := 1060%float |}]> ∅)
    1005%float "a" 2%Z 30
  = MemoryCache_set (∅ : gmap string (CacheEntry Z)) 1005%float "a" 2%Z 30.
Proof.
  assert (Hset : MemoryCache_set (∅ : gmap string (CacheEntry Z)) 1000%float "a" 1%Z 60
                 = Ok (<["a" := {| value := 1%Z; expires_at := 1060%float |}]> ∅))
    by (vm_compute; reflexivity).
  split; [exact Hset|].
  exact (MemoryCache_set_overwrites ∅ _ 1000%float 1005%float "a" 1%Z 2%Z 60 30 Hset).
Defined.

(** ** [WeatherClient.get_current_weather]: one request, and how it fails *)

(** X5: Every call sends exactly one GET request for [base_url/current.json]
    with the parameters [key] and [q], and touches neither the cache nor the
    clock.  A transport failure and a status other than 200 both raise
    [WeatherClientError], carrying the transport message, or the status and the
    response text.  The call returns an observation only for a 200 response
    whose body decodes to an object with a [location] and a [current] entry
    that make a valid [WeatherData]. *)
Theorem client_get_outcomes `{Env} (self : WeatherClient) (query : string) (w : World) :
  let request := {| req_method := "GET";
                    req_url := base_url self ++ "/current.json";
                    req_params := [("key", api_key self); ("q", query)];
                    req_json := None;
                    req_timeout := timeout self |} in
  let answer := http_send (length (requests w)) request in
  let run := weather_client.get_current_weather self query w in
  snd run = {| svc_cache := svc_cache w;
               requests := requests w ++ [request];
               clock_reads := clock_reads w |} /\
  (forall message, answer = RequestException message ->
     fst run = Raise (WeatherClientError ("Network error: " ++ message))) /\
  (forall status_code text body,
     answer = HttpResponse status_code text body -> status_code <> 200%Z ->
     fst run = Raise (WeatherClientError
                        ("WeatherAPI request failed: " ++ pretty status_code ++ " " ++ text))) /\
  (forall wd, fst run = Ok wd ->
     exists text raw location_block current_block,
       answer = HttpResponse 200 text (Some raw) /\
       subscript raw "location" = Ok location_block /\
       subscript raw "current" = Ok current_block /\
       build_weather location_block current_block = Ok wd).
Proof.
  intros request answer run. subst run.
  unfold weather_client.get_current_weather, mbind, send, raise, lift.
  fold request. fold answer.
  destruct answer as [msg | status text body] eqn:Hanswer.
  - split; [reflexivity|]. split; [intros message [= <-]; reflexivity|].
    split; [discriminate|]. discriminate.
  - destruct (Z.eqb_spec status 200) as [->|Hstatus]; simpl.
    + split; [reflexivity|]. split; [discriminate|].
      split; [intros s t b [= <- <- <-] Hne; contradiction|].
      intros wd Hwd.
      destruct body as [raw|]; simpl in Hwd; [|discriminate].
      destruct (subscript raw "location") as [lb|e] eqn:Hlb; simpl in Hwd; [|discriminate].
      destruct (subscript raw "current") as [cb|e] eqn:Hcb; simpl in Hwd; [|discriminate].
      destruct (py_get lb "name" (JStr query)) as [name|e]; simpl in Hwd; [|discriminate].
      exists text, raw, lb, cb. repeat split; assumption.
    + split; [reflexivity|]. split; [discriminate|].
      split; [intros s t b [= <- <- <-] _; reflexivity|]. discriminate.
Qed.

(** ** The arguments the client hands to [WeatherData] *)

Lemma get_numeric_never_blank (current_block : json) (key : string) (v : json) :
  get_numeric current_block key = Ok v -> v <> JStr "".
Proof.
  unfold get_numeric.
  destruct (py_get current_block key JNull) as [value|e]; simpl; [|discriminate].
  intros [= <-]. destruct value as [| b | z | x | s | l | d]; try discriminate.
  destruct (String.eqb_spec s "") as [->|Hs]; [discriminate|]. congruence.
Qed.

Lemma or_None_cases (x : json) : or_None x = JNull \/ (or_None x = x /\ truthy x = true).
Proof. unfold or_None. destruct (truthy x); auto. Qed.

(** X6: Whatever the payload, the client passes [temp_k] as absent; it passes none
    of the thirteen fields read through [get_numeric] as an empty string; and
    it passes [state] and [time_zone] as absent unless the payload has a
    non-empty value for them (an empty region becomes absent, not ""). *)
Theorem weather_kwargs_coercions (location_block current_block : json) (kw : WeatherKwargs) :
  weather_kwargs location_block current_block = Ok kw ->
  kw_temp_k kw = JNull /\
  Forall (fun v => v <> JStr "")
    [kw_wind_degree kw; kw_pressure_mb kw; kw_pressure_in kw; kw_precip_mm kw;
     kw_precip_in kw; kw_humidity kw; kw_feelslike_c kw; kw_feelslike_f kw;
     kw_vis_km kw; kw_vis_miles kw; kw_uv kw; kw_gust_kph kw; kw_gust_mph kw] /\
  (kw_state kw = JNull \/
   (py_get location_block "region" JNull = Ok (kw_state kw) /\ truthy (kw_state kw) = true)) /\
  (kw_time_zone kw = JNull \/
   (py_get location_block "tz_id" JNull = Ok (kw_time_zone kw) /\
    truthy (kw_time_zone kw) = true)).
Proof.
  intros Hkw.
  pose proof (weather_kwargs_numeric_fields _ _ _ Hkw) as
    (H1 & H2 & H3 & H4 & H5 & H6 & H7 & H8 & H9 & H10 & H11 & H12 & H13).
  unfold weather_kwargs in Hkw. destruct_rbind. injection Hkw as <-. simpl in *.
  split; [reflexivity|]. split.
  - repeat constructor; eapply get_numeric_never_blank; eassumption.
  - split.
    + destruct (or_None_cases a0) as [-> | [-> Ht]]; [left; reflexivity | right; auto].
    + destruct (or_None_cases a2) as [-> | [-> Ht]]; [left; reflexivity | right; auto].
Qed.

Lemma weather_kwargs_coercions_witness :
  exists kw,
    weather_kwargs (sample_location_block "London") blank_current_block = Ok kw /\
    kw_temp_k kw = JNull /\ kw_state kw = JNull /\ kw_pressure_mb kw <> JStr "".
Proof.
  eexists. split; [reflexivity|].
  pose proof (weather_kwargs_coercions (sample_location_block "London") blank_current_block
                _ eq_refl) as (Hk & Hnum & _).
  split; [exact Hk|]. split; [reflexivity|].
  apply Forall_cons in Hnum as [_ Hnum]. apply Forall_cons in Hnum as [Hp _]. exact Hp.
Defined.

(** ** [WeatherClient.get_current_weather_bulk]: how a batch fails *)

Lemma to_query_raises_ValueError `{Env} (l : Location) (e : exn) :
  to_query l = Raise e -> e = ValueError.
Proof.
  unfold to_query.
  destruct (truthy_float (latitude l) && truthy_float (longitude l)); [discriminate|].
  destruct (truthy_str (zip_code l)); [discriminate|].
  destruct (truthy_str (ip_address l)); [discriminate|].
  destruct (truthy_str (city l) && truthy_str (country l)); [discriminate|].
  destruct (truthy_str (city l) && truthy_str (state l)); [discriminate|].
  destruct (truthy_str (city l)); [discriminate|].
  destruct (truthy_str (state l)); [discriminate|].
  destruct (truthy_str (country l)); [discriminate|].
  congruence.
Qed.

Lemma tag_locations_fails `{Env} (locations : list Location) :
  Exists (fun loc => exists e, to_query loc = Raise e) locations ->
  forall idx bulk_locations id_to_index,
    weather_client.tag_locations idx locations bulk_locations id_to_index
    = Raise ValueError.
Proof.
  induction locations as [|loc rest IH]; intros Hex idx bl m; [inversion Hex|].
  simpl. destruct (to_query loc) as [q|e] eqn:Hq; simpl.
  - apply IH. inversion Hex as [? ? [e He] | ? ? Hrest]; subst; [congruence | exact Hrest].
  - apply to_query_raises_ValueError in Hq as ->. reflexivity.
Qed.

(** X7: A batch with a location that does not resolve raises [ValueError] before
    anything is sent: the world is as it was, and no other location of the
    batch is fetched. *)
Theorem bulk_unresolvable_location `{Env} (self : WeatherClient)
    (locations : list Location) (w : World) :
  Exists (fun loc => exists e, to_query loc = Raise e) locations ->
  weather_client.get_current_weather_bulk self locations w = (Raise ValueError, w).
Proof.
  intros Hex. destruct locations as [|loc rest]; [inversion Hex|].
  unfold weather_client.get_current_weather_bulk, mbind, lift.
  rewrite (tag_locations_fails _ Hex). reflexivity.
Qed.

Lemma bulk_unresolvable_location_witness :
  Exists (fun loc => exists e, @to_query sample_env loc = Raise e) [London; Nowhere; Oslo] /\
  @weather_client.get_current_weather_bulk sample_env sample_client
     [London; Nowhere; Oslo] (empty_world None)
  = (Raise ValueError, empty_world None).
Proof.
  assert (Hex : Exists (fun loc => exists e, @to_query sample_env loc = Raise e)
                  [London; Nowhere; Oslo]).
  { apply Exists_cons_tl, Exists_cons_hd. exists ValueError. reflexivity. }
  split; [exact Hex|].
  exact (@bulk_unresolvable_location sample_env sample_client _ (empty_world None) Hex).
Defined.

(** The bulk call with its first loop done: one request, and the rest is a
    function of the provider's answer. *)
Lemma client_bulk_run `{Env} (self : WeatherClient) (locations : list Location)
    (qs : list string) (w : World) :
  locations <> [] ->
  Forall2 (fun loc q => to_query loc = Ok q) locations qs ->
  exists id_to_index,
    indexes (length locations) id_to_index /\
    weather_client.get_current_weather_bulk self locations w
    = (match http_send (length (requests w)) (bulk_request self qs) with
       | RequestException e => Raise (WeatherClientError ("Network error: " ++ e))
       | HttpResponse status_code text body =>
           if negb (status_code =? 200)%Z then
             Raise (WeatherClientError
                      ("Failed bulk weather request: " ++ pretty status_code ++ " " ++ text))
           else
             raw <-? response_json body;;
             bulk <-? py_get raw "bulk" (JList []);;
             bulk_items <-? iter_items bulk;;
             weather_client.process_items id_to_index
               (replicate (length locations) None) bulk_items
       end,
       add_request (bulk_request self qs) w).
Proof.
  intros Hne Hqs. destruct locations as [|loc rest]; [congruence|].
  unfold weather_client.get_current_weather_bulk.
  remember (loc :: rest) as locations eqn:Hlocs.
  unfold mbind, lift, raise, lift.
  destruct (tag_locations_total locations qs Hqs 0 [] ∅) as [tagged Htag].
  rewrite Htag.
  apply tag_locations_indexes in Htag as (qs' & Hqs' & Hfst & Hidx).
  assert (qs' = qs) as ->.
  { clear -Hqs Hqs'. revert qs' Hqs'.
    induction Hqs as [|l q ls qs Hq _ IH]; intros qs' Hqs'; inversion Hqs'; subst;
      [reflexivity|]. f_equal; [congruence | apply IH; assumption]. }
  exists (snd tagged). split; [exact Hidx|].
  unfold send. rewrite Hfst. fold (bulk_request self qs).
  destruct (http_send (length (requests w)) (bulk_request self qs))
    as [msg | status text body]; [reflexivity|].
  destruct (negb (status =? 200)%Z); reflexivity.
Qed.

(** X8: Once every location resolves, the bulk call sends exactly one POST
    request whatever happens next.  A transport failure and a status other
    than 200 raise [WeatherClientError] for the whole batch; a 200 answer whose
    body has no [bulk] entry, or an empty one, gives absent at every
    position. *)
Theorem bulk_answer_edges `{Env} (self : WeatherClient) (locations : list Location)
    (qs : list string) (w : World) :
  locations <> [] ->
  Forall2 (fun loc q => to_query loc = Ok q) locations qs ->
  let answer := http_send (length (requests w)) (bulk_request self qs) in
  let run := weather_client.get_current_weather_bulk self locations w in
  snd run = add_request (bulk_request self qs) w /\
  (forall message, answer = RequestException message ->
     fst run = Raise (WeatherClientError ("Network error: " ++ message))) /\
  (forall status_code text body,
     answer = HttpResponse status_code text body -> status_code <> 200%Z ->
     fst run = Raise (WeatherClientError
                        ("Failed bulk weather request: " ++ pretty status_code ++ " " ++ text))) /\
  (forall text d,
     answer = HttpResponse 200 text (Some (JDict d)) ->
     assoc d "bulk" = None \/ assoc d "bulk" = Some (JList []) ->
     fst run = Ok (replicate (length locations) None)).
Proof.
  intros Hne Hqs answer run. subst run.
  destruct (client_bulk_run self locations qs w Hne Hqs) as (m & _ & ->). simpl.
  fold answer. split; [reflexivity|]. split; [|split].
  - intros message ->. reflexivity.
  - intros status text body -> Hstatus.
    destruct (Z.eqb_spec status 200); [contradiction | reflexivity].
  - intros text d -> Hbulk. simpl. destruct Hbulk as [-> | ->]; reflexivity.
Qed.

Lemma bulk_answer_edges_witness :
  Forall2 (fun loc q => @to_query down_env loc = Ok q) [London; Paris] ["London"; "Paris"] /\
  fst (@weather_client.get_current_weather_bulk down_env sample_client [London; Paris]
         (empty_world None))
  = Raise (WeatherClientError "Failed bulk weather request: 503 Service Unavailable").
Proof.
  assert (Hqs : Forall2 (fun loc q => @to_query down_env loc = Ok q)
                  [London; Paris] ["London"; "Paris"])
    by (repeat constructor).
  split; [exact Hqs|].
  exact (proj1 (proj2 (proj2
           (@bulk_answer_edges down_env sample_client [London; Paris] ["London"; "Paris"]
              (empty_world None) ltac:(discriminate) Hqs)))
           503%Z "Service Unavailable" None eq_refl ltac:(discriminate)).
Defined.

Lemma process_item_accepted `{Env} (n : nat) (id_to_index : gmap string nat)
    (results : list (option WeatherData)) (item : json) :
  indexes n id_to_index -> item_accepted n item ->
  exists res, weather_client.process_item id_to_index results item = Ok res.
Proof.
  intros Hidx (qb & cid & lb & cb & Hq & Hc & Hl & Hcb & Hok).
  unfold weather_client.process_item. rewrite Hq. simpl. rewrite Hc, Hl, Hcb. simpl.
  destruct cid as [| b | z | x | s | l | d]; simpl; eauto; try contradiction.
  destruct (id_to_index !! s) as [idx|] eqn:Hm; simpl; [|eauto].
  apply Hidx in Hm as [Hlt ->].
  destruct Hok as [wd ->]; eauto.
Qed.

Lemma process_item_broken `{Env} (n i : nat) (id_to_index : gmap string nat)
    (results : list (option WeatherData)) (item : json) (e : exn) :
  indexes n id_to_index -> i < n ->
  item_custom_id item = Some (pretty i) ->
  item_weather item = Raise e ->
  weather_client.process_item id_to_index results item = Raise e.
Proof.
  intros Hidx Hi Hid Hw.
  unfold item_custom_id in Hid. unfold item_weather in Hw.
  unfold weather_client.process_item.
  destruct (py_get item "query" (JDict [])) as [qb|e0]; simpl in *; [|discriminate].
  destruct qb as [| b | z | x | s | l | d]; simpl in *; try discriminate.
  destruct (default JNull (assoc d "custom_id")) as [| b | z | x | s | l | d0];
    try discriminate.
  injection Hid as ->.
  assert (Hm : id_to_index !! pretty i = Some i) by (apply Hidx; auto).
  rewrite Hm. destruct (build_weather _ _) as [wd|e1]; simpl in *; congruence.
Qed.

Lemma process_items_broken `{Env} (n i : nat) (id_to_index : gmap string nat)
    (before after : list json) (item : json) (e : exn) :
  indexes n id_to_index ->
  Forall (item_accepted n) before ->
  i < n ->
  item_custom_id item = Some (pretty i) ->
  item_weather item = Raise e ->
  forall results,
    weather_client.process_items id_to_index results (before ++ item :: after)%list
    = Raise e.
Proof.
  intros Hidx Hbefore Hi Hid Hw.
  induction Hbefore as [|it rest Hit _ IH]; intros results; simpl.
  - rewrite (process_item_broken n i id_to_index results item e Hidx Hi Hid Hw).
    reflexivity.
  - destruct (process_item_accepted n id_to_index results it Hidx Hit) as [res ->].
    simpl. apply IH.
Qed.

(** X9: One malformed sub-result fails the whole batch: when an item of the
    answer carries an id that was sent and its blocks do not make a valid
    observation, the bulk call raises that item's error -- it does not return
    absent at that position -- provided the items before it went through. *)
Theorem bulk_broken_item_fails_batch `{Env} (self : WeatherClient)
    (locations : list Location) (qs : list string) (w : World)
    (text : string) (raw bulk : json) (before after : list json) (item : json)
    (i : nat) (e : exn) :
  locations <> [] ->
  Forall2 (fun loc q => to_query loc = Ok q) locations qs ->
  http_send (length (requests w)) (bulk_request self qs) = HttpResponse 200 text (Some raw) ->
  py_get raw "bulk" (JList []) = Ok bulk ->
  iter_items bulk = Ok (before ++ item :: after)%list ->
  Forall (item_accepted (length locations)) before ->
  i < length locations ->
  item_custom_id item = Some (pretty i) ->
  item_weather item = Raise e ->
  weather_client.get_current_weather_bulk self locations w
  = (Raise e, add_request (bulk_request self qs) w).
Proof.
  intros Hne Hqs Hsend Hbulk Hitems Hbefore Hi Hid Hw.
  destruct (client_bulk_run self locations qs w Hne Hqs) as (m & Hidx & ->).
  rewrite Hsend. simpl. rewrite Hbulk. simpl. rewrite Hitems. simpl.
  rewrite (process_items_broken (length locations) i m before after item e
             Hidx Hbefore Hi Hid Hw).
  reflexivity.
Qed.

Lemma bulk_broken_item_fails_batch_witness :
  @item_weather broken_env broken_item = Raise KeyError /\
  @weather_client.get_current_weather_bulk broken_env sample_client [London; Paris]
     (empty_world None)
  = (Raise KeyError,
     add_request (bulk_request sample_client ["London"; "Paris"]) (empty_world None)).
Proof.
  assert (Hw : @item_weather broken_env broken_item = Raise KeyError) by reflexivity.
  split; [exact Hw|].
  apply (@bulk_broken_item_fails_batch broken_env sample_client [London; Paris]
           ["London"; "Paris"] (empty_world None) ""
           (JDict [("bulk", JList [sample_item (JStr "0") "London"; broken_item])])
           (JList [sample_item (JStr "0") "London"; broken_item])
           [sample_item (JStr "0") "London"] [] broken_item 1 KeyError);
    try reflexivity; try discriminate; try exact Hw.
  - repeat constructor.
  - repeat constructor.
    exists (JDict [("custom_id", JStr "0"); ("q", JStr "London");
                   ("location", sample_location_block "London");
                   ("current", sample_current_block)]),
      (JStr "0"), (sample_location_block "London"), sample_current_block.
    repeat split. intros _. eexists. vm_compute. reflexivity.
  - simpl. lia.
Defined.

(** ** [_apply_units]: how two normalizations compose *)

Lemma kelvin_of_from (wd : WeatherData) : kelvin_of wd = kelvin_from (temp_c wd) (temp_f wd).
Proof. reflexivity. Qed.

Ltac mode_cases units :=
  destruct (mode_set_cases units) as
    [[-> ->] | [[-> ->] | [[-> ->] | [[-> ->] | [[-> ->] | (_ & _ & _ & _ & _ & ?)]]]]].

(** X10: Normalizing twice, under two recognized modes, keeps Celsius and
    Fahrenheit only where both modes select them, and derives the Kelvin of the
    second mode from what the first one kept: the first normalization is
    lossy, and the second cannot bring back what it cleared.  The
    non-temperature fields are untouched, and a string that is not a mode
    leaves its step out. *)
Theorem apply_units_compose (wd : WeatherData) (m1 m2 : string) :
  let r := _apply_units (_apply_units wd m1) m2 in
  match mode_set m1, mode_set m2 with
  | Some (c1, f1, _), Some (c2, f2, k2) =>
      temp_c r = (if c1 && c2 then temp_c wd else None) /\
      temp_f r = (if f1 && f2 then temp_f wd else None) /\
      temp_k r = (if k2 then kelvin_from (if c1 then temp_c wd else None)
                                         (if f1 then temp_f wd else None)
                  else None) /\
      common_fields r = common_fields wd
  | None, _ => r = _apply_units wd m2
  | Some _, None => r = _apply_units wd m1
  end.
Proof.
  intros r. subst r.
  mode_cases m1; mode_cases m2;
    repeat match goal with
    | Hn : mode_set _ = None |- _ =>
        rewrite ?Hn; rewrite ?(_apply_units_unrecognized _ _ Hn); clear Hn
    end;
    try reflexivity;
    simpl; rewrite ?base_k_spec; simpl; unfold kelvin_of; simpl;
    repeat split; reflexivity.
Qed.

(** X11: Normalizing to ALL or to BOTH first loses nothing a recognized mode
    needs, and the Kelvin the raw observation may carry is never read: under
    every recognized mode the result is the same with or without it. *)
Theorem apply_units_reads_celsius_fahrenheit_only (wd : WeatherData) (units : string) :
  match mode_set units with
  | Some _ =>
      _apply_units (_apply_units wd "ALL") units = _apply_units wd units /\
      _apply_units (_apply_units wd "BOTH") units = _apply_units wd units /\
      forall k, _apply_units (with_temps wd (temp_c wd) (temp_f wd) k) units
                = _apply_units wd units
  | None => True
  end.
Proof.
  mode_cases units;
    [ | | | | | match goal with Hn : mode_set _ = None |- _ => rewrite Hn; exact I end ];
    (split; [|split; [|intros k]]); apply WeatherData_ext; reflexivity.
Qed.

(** ** [WeatherService.get_current_weather]: no cache, failures, letter case *)

(** X12: Without a cache every call whose location resolves sends one request and
    returns the normalized answer (or passes the client's error on); the
    service stays without a cache and never reads the clock, so a repeated
    call asks the provider again. *)
Theorem getOne_without_cache `{Env} (self : weather_service.WeatherService)
    (location : Location) (units : option string) (w : World) (q : string) :
  svc_cache w = None ->
  to_query location = Ok q ->
  weather_service.get_current_weather self location units w
  = (match fst (weather_client.get_current_weather (weather_service.client self) q w) with
     | Ok raw => Ok (_apply_units raw (weather_service.effective_units self units))
     | Raise e => Raise e
     end,
     {| svc_cache := None;
        requests := requests w ++ [single_request (weather_service.client self) q];
        clock_reads := clock_reads w |}).
Proof.
  intros Hc Hq.
  unfold weather_service.get_current_weather, mbind, lift. rewrite Hq.
  unfold weather_service.cache_get. rewrite Hc.
  pose proof (client_get_run (weather_service.client self) q w) as Hrun.
  destruct (weather_client.get_current_weather (weather_service.client self) q w)
    as [[raw|e] w1]; simpl in *; subst w1.
  - unfold weather_service.cache_set, add_request, mret. simpl. rewrite Hc. reflexivity.
  - unfold add_request. rewrite Hc. reflexivity.
Qed.

Lemma getOne_without_cache_witness :
  @to_query sample_env London = Ok "London" /\
  @weather_service.get_current_weather sample_env
     (weather_service.init sample_client 900 "F") London None (empty_world None)
  = (Ok (_apply_units (sample_weather "London") "F"),
     {| svc_cache := None; requests := [single_request sample_client "London"];
        clock_reads := 0 |}).
Proof.
  split; [reflexivity|].
  rewrite (@getOne_without_cache sample_env (weather_service.init sample_client 900 "F")
             London None (empty_world None) "London" eq_refl eq_refl).
  vm_compute. reflexivity.
Defined.

(** X13: A failure stores nothing.  A location that does not resolve fails before
    the cache is consulted or anything is sent.  When the cache has no live
    entry and the client fails, the service passes the client's error on after
    the one request, and the key is still absent from the cache afterwards. *)
Theorem getOne_failure_stores_nothing `{Env} (self : weather_service.WeatherService)
    (location : Location) (units : option string) (w : World) :
  (forall e, to_query location = Raise e ->
     weather_service.get_current_weather self location units w = (Raise e, w)) /\
  (forall store q e,
     svc_cache w = Some store ->
     to_query location = Ok q ->
     let key := q ++ "|units=" ++ weather_service.effective_units self units in
     let after_get := snd (MemoryCache_get store (time_time (clock_reads w)) key) in
     fst (MemoryCache_get store (time_time (clock_reads w)) key) = None ->
     fst (weather_client.get_current_weather (weather_service.client self) q w) = Raise e ->
     exists w',
       weather_service.get_current_weather self location units w = (Raise e, w') /\
       requests w' = (requests w ++ [single_request (weather_service.client self) q])%list /\
       svc_cache w' = Some after_get /\
       after_get !! key = None).
Proof.
  split.
  - intros e Hq. unfold weather_service.get_current_weather, mbind, lift.
    rewrite Hq. reflexivity.
  - intros store q e Hc Hq key after_get Hmiss Hraise.
    unfold weather_service.get_current_weather, mbind, lift. rewrite Hq.
    fold key. unfold weather_service.cache_get. rewrite Hc. rewrite Hmiss.
    fold after_get.
    set (reads := if bool_decide (is_Some (store !! key))
                  then S (clock_reads w) else clock_reads w).
    set (w_g := {| svc_cache := Some after_get; requests := requests w;
                   clock_reads := reads |}).
    pose proof (client_get_frame (weather_service.client self) q w (Some after_get) reads)
      as Hfr.
    pose proof (client_get_run (weather_service.client self) q w_g) as Hrun.
    fold w_g in Hfr. rewrite Hraise in Hfr.
    destruct (weather_client.get_current_weather (weather_service.client self) q w_g)
      as [r w_c]. simpl in Hfr, Hrun. subst r w_c.
    eexists. split; [reflexivity|]. simpl. split; [reflexivity|]. split; [reflexivity|].
    subst after_get. unfold MemoryCache_get in *.
    destruct (store !! key) as [entry|] eqn:Hk; [|exact Hk].
    destruct (expires_at entry <? time_time (clock_reads w))%float; [|discriminate].
    apply lookup_delete_eq.
Qed.

Lemma upper_ascii_idempotent (c : ascii) : upper_ascii (upper_ascii c) = upper_ascii c.
Proof. destruct c as [[] [] [] [] [] [] [] []]; reflexivity. Qed.

Lemma upper_idempotent (s : string) : upper (upper s) = upper s.
Proof.
  induction s as [|c s IH]; [reflexivity|]. simpl.
  rewrite upper_ascii_idempotent, IH. reflexivity.
Qed.

Lemma truthy_str_upper (u : string) : truthy_str (Some (upper u)) = truthy_str (Some u).
Proof. destruct u; reflexivity. Qed.

(** X14: The unit mode is case-insensitive throughout the service: a call with the
    units [u] and a call with [u] in upper case are the same computation (same
    result, same cache key, same requests), for the single and for the bulk
    path, and the default mode is stored in upper case whatever its spelling. *)
Theorem units_case_insensitive `{Env} (self : weather_service.WeatherService) (u : string) :
  weather_service.effective_units self (Some u)
    = weather_service.effective_units self (Some (upper u)) /\
  (forall location w,
     weather_service.get_current_weather self location (Some u) w
     = weather_service.get_current_weather self location (Some (upper u)) w) /\
  (forall locations w,
     weather_service.get_current_weather_bulk self locations (Some u) w
     = weather_service.get_current_weather_bulk self locations (Some (upper u)) w) /\
  (forall client cache_ttl,
     weather_service.init client cache_ttl u = weather_service.init client cache_ttl (upper u) /\
     weather_service.default_units (weather_service.init client cache_ttl u) = upper u).
Proof.
  assert (Heff : weather_service.effective_units self (Some u)
                 = weather_service.effective_units self (Some (upper u))).
  { unfold weather_service.effective_units. rewrite truthy_str_upper.
    destruct (truthy_str (Some u)); [|reflexivity].
    simpl. rewrite upper_idempotent. reflexivity. }
  split; [exact Heff|]. split; [|split].
  - intros location w. unfold weather_service.get_current_weather.
    rewrite Heff. reflexivity.
  - intros locations w. unfold weather_service.get_current_weather_bulk.
    rewrite Heff. reflexivity.
  - intros client0 ttl. unfold weather_service.init. simpl.
    rewrite upper_idempotent. split; reflexivity.
Qed.

(** * The batch pipeline around the service: properties *)

(** ** The columns of the output and the rows written to it *)

(** X15: The header has no repeated column, and every row dict has exactly the
    columns of the header, each once: no row carries a key the header lacks
    and no column is left for [DictWriter] to fill in. *)
Theorem writer_rows_match_header (self : csv_writer.CSVWriter)
    (pair : Location * WeatherData) :
  NoDup (csv_writer.fieldnames self) /\
  map fst (csv_writer.row self pair) ≡ₚ csv_writer.fieldnames self.
Proof.
  unfold csv_writer.fieldnames, csv_writer.row, csv_writer.temp_fields.
  destruct (csv_writer.among (csv_writer.units self) ["C"; "BOTH"; "ALL"]),
    (csv_writer.among (csv_writer.units self) ["F"; "BOTH"; "ALL"]),
    (csv_writer.among (csv_writer.units self) ["K"; "ALL"]),
    (csv_writer.detailed self);
    (split; apply (bool_decide_unpack _); vm_compute; exact I).
Qed.

(** X16: For a recognized mode the header has a temperature column for exactly
    the temperatures of the mode's set, in the order Celsius, Fahrenheit,
    Kelvin, and the observation the service normalized under that mode has no
    value for a temperature without a column: the file drops nothing the
    service produced.  For a string that is not a mode the header has no
    temperature column. *)
Theorem writer_columns_match_normalizer (path u : string) (detailed : bool)
    (wd : WeatherData) :
  let self := csv_writer.init path u detailed in
  let mode := upper u in
  match mode_set mode with
  | Some (c, f, k) =>
      csv_writer.temp_fields self
      = ((if c then ["temp_c"] else []) ++ (if f then ["temp_f"] else []) ++
         (if k then ["temp_k"] else []))%list /\
      (c = false -> temp_c (_apply_units wd mode) = None) /\
      (f = false -> temp_f (_apply_units wd mode) = None) /\
      (k = false -> temp_k (_apply_units wd mode) = None)
  | None => csv_writer.temp_fields self = []
  end.
Proof.
  intros self mode. subst self. unfold csv_writer.init, csv_writer.temp_fields. simpl.
  fold mode. generalize mode. clear mode. intros mode.
  destruct (mode_set_cases mode) as
    [[-> ->] | [[-> ->] | [[-> ->] | [[-> ->] | [[-> ->] | (HC & HF & HK & HB & HA & ->)]]]]];
    try (simpl; repeat split; intros; try discriminate; reflexivity).
  unfold csv_writer.among. simpl.
  destruct (String.eqb_spec mode "C"); [contradiction|].
  destruct (String.eqb_spec mode "F"); [contradiction|].
  destruct (String.eqb_spec mode "K"); [contradiction|].
  destruct (String.eqb_spec mode "BOTH"); [contradiction|].
  destruct (String.eqb_spec mode "ALL"); [contradiction|].
  reflexivity.
Qed.

(** ** What the reader hands to the service *)

Lemma kwarg_clean_row (strip : string -> string) (row : gmap string (option string))
    (field : string) :
  field ∈ csv_reader.model_fields ->
  csv_reader.kwarg (csv_reader._clean_row strip row) field
  = csv_reader.clean_value strip row field.
Proof.
  unfold csv_reader.model_fields. intros Hin.
  repeat (apply elem_of_cons in Hin as [-> | Hin]; [reflexivity|]).
  inversion Hin.
Qed.

Lemma clean_value_truthy (strip : string -> string) (row : gmap string (option string))
    (field : string) :
  truthy_str (csv_reader.clean_value strip row field)
  = is_set (csv_reader.clean_value strip row field).
Proof.
  unfold csv_reader.clean_value.
  destruct (csv_reader.row_get row field) as [value|]; [|reflexivity].
  simpl. destruct (String.eqb (strip value) "") eqn:E; [reflexivity|].
  simpl. rewrite E. reflexivity.
Qed.

Lemma read_rows_elem (strip : string -> string) (parse_float : string -> option float)
    (rows : list (gmap string (option string))) (loc : Location) :
  loc ∈ csv_reader.read_rows strip parse_float rows ->
  exists row, row ∈ rows /\
    csv_reader.Location_of parse_float (csv_reader._clean_row strip row) = Ok loc.
Proof.
  induction rows as [|row rest IH]; simpl; [intros Hin; inversion Hin|].
  destruct (csv_reader.Location_of parse_float (csv_reader._clean_row strip row))
    as [l|e] eqn:Hl.
  - intros Hin. apply elem_of_cons in Hin as [-> | Hin].
    + exists row. split; [left | exact Hl].
    + destruct (IH Hin) as (r & Hr & Hloc). exists r. split; [right; exact Hr | exact Hloc].
  - intros Hin. destruct (IH Hin) as (r & Hr & Hloc).
    exists r. split; [right; exact Hr | exact Hloc].
Qed.

(** X17: In a location read from a CSV file no text field is the empty string: a
    blank cell (empty after stripping) was turned into [None].  So for these
    locations a text field is present exactly when it is set, and [to_query]
    follows the precedence table read that way. *)
Theorem csv_locations_have_no_blank_text `{Env} (strip : string -> string)
    (parse_float : string -> option float) (rows : list (gmap string (option string)))
    (loc : Location) :
  loc ∈ csv_reader.read_rows strip parse_float rows ->
  Forall (fun field => field <> Some "" /\ truthy_str field = is_set field)
    [city loc; country loc; state loc; zip_code loc; ip_address loc] /\
  to_query loc = first_match (precedence truthy_float is_set loc).
Proof.
  intros Hin. apply read_rows_elem in Hin as (row & _ & Hloc).
  unfold csv_reader.Location_of in Hloc.
  destruct (csv_reader.coordinate parse_float _) as [lat|e]; simpl in Hloc; [|discriminate].
  destruct (csv_reader.coordinate parse_float _) as [lon|e]; simpl in Hloc; [|discriminate].
  injection Hloc as <-.
  cbn [city country state zip_code ip_address latitude longitude].
  assert (Hclean : forall field,
            csv_reader.clean_value strip row field <> Some "" /\
            truthy_str (csv_reader.clean_value strip row field)
            = is_set (csv_reader.clean_value strip row field)).
  { intros field. split; [|apply clean_value_truthy].
    pose proof (clean_value_truthy strip row field) as Ht.
    intros Heq. rewrite Heq in Ht. discriminate. }
  split.
  - repeat constructor; apply Hclean.
  - rewrite to_query_first_match. unfold precedence. simpl.
    rewrite !clean_value_truthy. reflexivity.
Qed.

Lemma csv_locations_have_no_blank_text_witness :
  London_csv ∈ csv_reader.read_rows sample_strip sample_parse_float sample_rows /\
  @to_query sample_env London_csv = Ok "51.5074,-0.1278" /\
  state London_csv = None.
Proof.
  assert (Hin : London_csv ∈ csv_reader.read_rows sample_strip sample_parse_float sample_rows).
  { vm_compute. left. }
  split; [exact Hin|].
  pose proof (@csv_locations_have_no_blank_text sample_env sample_strip sample_parse_float
                sample_rows London_csv Hin) as [_ Hq].
  split; [rewrite Hq; reflexivity | reflexivity].
Defined.


(** ** The rows of a run *)




Lemma length_zip {A B : Type} (l : list A) (k : list B) :
  length (pipeline.zip l k) = Nat.min (length l) (length k).
Proof.
  revert k. induction l as [|a l IH]; intros [|b k]; simpl; [reflexivity.. |].
  rewrite IH. reflexivity.
Qed.



Lemma client_bulk_length `{Env} (self : WeatherClient) (locations : list Location)
    (w w' : World) (raw_results : list (option WeatherData)) :
  weather_client.get_current_weather_bulk self locations w = (Ok raw_results, w') ->
  length raw_results = length locations.
Proof.
  intros Hrun. destruct locations as [|loc rest].
  { injection Hrun as <- <-. reflexivity. }
  unfold weather_client.get_current_weather_bulk in Hrun.
  remember (loc :: rest) as locations eqn:Hlocs.
  unfold mbind, lift in Hrun.
  destruct (weather_client.tag_locations 0 locations [] ∅) as [tagged|e] eqn:Htag;
    [|discriminate].
  apply tag_locations_indexes in Htag as (qs & _ & _ & Hidx).
  unfold send in Hrun.
  destruct (http_send _ _) as [msg | status text body]; [discriminate|].
  destruct (negb (status =? 200)%Z); [discriminate|].
  destruct body as [raw|]; simpl in Hrun; [|discriminate].
  destruct (py_get raw "bulk" (JList [])) as [bulk|e]; simpl in Hrun; [|discriminate].
  destruct (iter_items bulk) as [bulk_items|e]; simpl in Hrun; [|discriminate].
  injection Hrun as Hres _.
  apply (process_items_answer (length locations)) in Hres as [Hlen _]; assumption.
Qed.

Lemma length_present_absent {A : Type} (l : list (option A)) (i : nat) :
  l !! i = Some None -> length (present l) < length l.
Proof.
  revert i. induction l as [|[a|] l IH]; intros i Hi.
  - discriminate.
  - destruct i as [|i]; [discriminate|].
    change (S (length (present l)) < S (length l)). specialize (IH i Hi). lia.
  - change (length (present l) < S (length l)). pose proof (length_present l). lia.
Qed.

(** X20: In the bulk mode the rows pair the kept locations, in order, with the
    sub-results that are present, in order: the run writes as many rows as
    there are present sub-results.  So when the sub-result of some position
    is absent there are fewer rows than locations, and from that position on
    each location is written beside the observation of a later one. *)
Theorem pipeline_bulk_rows `{Env} (key base_url : string) (read : list Location)
    (output_csv units : string) (use_cache : bool) (cache_ttl : Z) (max_rows : option Z)
    (detailed : bool) (w w' : World)
    (out : option (list string * list (list (string * csv_writer.cell)))) :
  pipeline.run_pipeline key base_url read output_csv units use_cache cache_ttl max_rows
    true detailed w = (Ok out, w') ->
  let locations := pipeline.limit max_rows read in
  let client := {| api_key := key; base_url := base_url; timeout := 10 |} in
  let writer := csv_writer.init output_csv units detailed in
  locations <> [] ->
  exists raw_results,
    fst (weather_client.get_current_weather_bulk client locations
           (with_cache (if use_cache then Some ∅ else None) w)) = Ok raw_results /\
    length raw_results = length locations /\
    let results :=
      pipeline.zip locations (map (fun wd => _apply_units wd (upper units))
                                (present raw_results)) in
    out = csv_writer.write writer results /\
    length results = length (present raw_results) /\
    (forall i, raw_results !! i = Some None -> length results < length locations).
Proof.
  intros Hrun locations client writer Hne.
  unfold pipeline.run_pipeline, mbind, mret in Hrun. fold locations client in Hrun.
  set (w0 := with_cache (if use_cache then Some ∅ else None) w) in *.
  set (service := weather_service.init client cache_ttl units) in *.
  assert (Heff : weather_service.effective_units service (Some units) = upper units).
  { unfold weather_service.effective_units, service. simpl.
    destruct (String.eqb units ""); simpl; [|reflexivity].
    rewrite upper_idempotent. reflexivity. }
  unfold weather_service.get_current_weather_bulk in Hrun.
  destruct locations as [|loc rest] eqn:Hlocs; [congruence|].
  unfold mbind, mret in Hrun. change (weather_service.client service) with client in Hrun.
  destruct (weather_client.get_current_weather_bulk client (loc :: rest) w0)
    as [[raw|e] w1] eqn:Hbulk; [|discriminate].
  injection Hrun as <- <-.
  pose proof (client_bulk_length _ _ _ _ _ Hbulk) as Hlen.
  exists raw. split; [reflexivity|]. split; [exact Hlen|].
  rewrite process_results_present, Heff. split; [reflexivity|].
  assert (Hzip : length (pipeline.zip (loc :: rest)
                           (map (fun wd => _apply_units wd (upper units)) (present raw)))
                 = length (present raw)).
  { rewrite length_zip, length_map. pose proof (length_present raw). lia. }
  split; [exact Hzip|].
  intros i Hi. rewrite Hzip. apply length_present_absent in Hi. lia.
Qed.

Lemma pipeline_bulk_rows_witness :
  exists header w',
    @pipeline.run_pipeline sample_env "secret" "https://api.weatherapi.com/v1"
       [London; Paris; Oslo] "out.csv" "C" false 900 None true false (empty_world None)
    = (Ok (Some (header,
                 [csv_writer.row (csv_writer.init "out.csv" "C" false)
                    (London, _apply_units (sample_weather "London") "C");
                  csv_writer.row (csv_writer.init "out.csv" "C" false)
                    (Paris, _apply_units (sample_weather "Oslo") "C")])), w').
Proof.
  assert (Hrun : exists out w',
    @pipeline.run_pipeline sample_env "secret" "https://api.weatherapi.com/v1"
       [London; Paris; Oslo] "out.csv" "C" false 900 None true false (empty_world None)
    = (Ok out, w')).
  { eexists. eexists. vm_compute. reflexivity. }
  destruct Hrun as (out & w' & Hrun).
  destruct (@pipeline_bulk_rows sample_env _ _ _ _ _ _ _ _ _ _ _ _ Hrun ltac:(discriminate))
    as (raw & Hraw & _ & Hout & _).
  assert (Hraw' : raw = [Some (sample_weather "London"); None; Some (sample_weather "Oslo")]).
  { vm_compute in Hraw. injection Hraw as <-. reflexivity. }
  subst raw. cbv zeta in Hout. subst out.
  eexists. exists w'. rewrite Hrun. reflexivity.
Defined.

(** X21: A run with nothing to fetch (no location read, or [max_rows] of 0) sends
    no request and writes no file, not even a header, in either mode. *)
Theorem pipeline_empty_input `{Env} (key base_url : string) (read : list Location)
    (output_csv units : string) (use_cache : bool) (cache_ttl : Z) (max_rows : option Z)
    (use_bulk detailed : bool) (w : World) :
  pipeline.limit (Some 0%Z) read = [] /\
  (pipeline.limit max_rows read = [] ->
   pipeline.run_pipeline key base_url read output_csv units use_cache cache_ttl max_rows
     use_bulk detailed w
   = (Ok None, with_cache (if use_cache then Some ∅ else None) w)).
Proof.
  split; [reflexivity|]. intros Hempty.
  unfold pipeline.run_pipeline. rewrite Hempty. destruct use_bulk; reflexivity.
Qed.
